(** * Stratum session core of the mining-pool proxy (proxy/stratum.go)

    A shallow embedding of the TCP session handler, the reply primitives,
    the session registry and the job broadcaster, together with the
    properties of the specification that concern them.

    Conventions of the embedding:
    - Go's [error] results are [option error] ([None] is [nil]);
    - a run-time panic (index out of range, nil dereference) is the
      outcome [Panic];
    - mutexes are not modelled: every function below runs to completion
      before another one starts, so the locks are always free when taken;
    - [log.Printf] calls are omitted, they touch no state of the proxy. *)

From Stdlib Require Import ZArith Lia.
From Stdlib.Strings Require Import Byte.
From stdpp Require Import base option list gmap sets strings functions.

(** ** Wire-level data *)

(** [json.RawMessage]: the bytes of a JSON value, kept undecoded. *)
Abbreviation RawMessage := (list byte).

(** Go [error] values.  [io_EOF] is the sentinel [io.EOF]; [errors_New] is
    what [errors.New] builds; the other two stand for the errors of the
    [net] and [encoding/json] packages. *)
Inductive error : Type :=
  | io_EOF
  | errors_New (msg : string)
  | net_Error (msg : string)
  | json_Error (msg : string).

#[global] Instance error_eq_dec : EqDecision error.
Proof. solve_decision. Defined.

(** The error a closed [net.TCPConn] reports. *)
Definition net_ErrClosed : error := net_Error "use of closed network connection".

(** Modelled from the spec: the declaration of [ErrorReply] is not in
    stratum.go; a structured error [{code, message}], of which stratum.go
    reads the field [Message]. *)
Record ErrorReply := { Code : Z; Message : string }.

(** What an [interface{}] result holds once it is encoded as JSON. *)
Inductive JSONValue : Type :=
  | JNull
  | JBool (b : bool)
  | JNumber (n : Z)
  | JString (s : string)
  | JStrings (l : list string).

(** Modelled from the spec: the declaration of [StratumReq] is not in
    stratum.go; a request carries an opaque identifier, a method name, the
    raw parameters and an optional worker tag. *)
Record StratumReq := {
  Id : RawMessage;
  Method : string;
  Params : RawMessage;
  Worker : string
}.

(** Modelled from the spec: the declaration of [JSONRpcResp] is not in
    stratum.go; the envelope [{id, version, result, error}].  A field left
    out of a Go composite literal is the zero value: [JNull], [None]. *)
Record JSONRpcResp := {
  resp_Id : RawMessage;
  resp_Version : string;
  resp_Result : JSONValue;
  resp_Error : option ErrorReply
}.

(** Modelled from the spec: the declaration of [JSONPushMessage] is not in
    stratum.go; the notification envelope [{version, result, id}]. *)
Record JSONPushMessage := {
  push_Version : string;
  push_Result : JSONValue;
  push_Id : Z
}.

(** A value handed to the session's JSON encoder. *)
Inductive Envelope : Type :=
  | RpcResp (m : JSONRpcResp)
  | PushMessage (m : JSONPushMessage).

(** ** Sessions and connections *)

(** A [*Session] used as a map key: the pointer itself ([s_ptr]) together
    with the fields that never change after [ListenTCP] built the session.
    Endpoint indices are the non-negative [int]s [ListenTCP] is started
    with. *)
Record Session := { s_ptr : positive; s_id : nat; ip : string }.

#[global] Instance Session_eq_dec : EqDecision Session.
Proof. solve_decision. Defined.

#[global] Instance Session_countable : Countable Session :=
  inj_countable' (λ cs, (s_ptr cs, s_id cs, ip cs))
                 (λ t, {| s_ptr := t.1.1; s_id := t.1.2; ip := t.2 |})
                 (λ cs, match cs with Build_Session _ _ _ => eq_refl end).

(** The transport of one session ([cs.conn] with the encoder [cs.enc] and
    the [bufio.Reader] on top of it).
    - [rd] are the bytes the peer sends that the reader has not consumed
      yet, [rd_end] the error the transport reports once they are used up
      ([io_EOF] for a clean end of stream, another error for a reset or an
      expired deadline);
    - [wfail n] is what the transport answers to the [n]-th write;
    - [wlog] lists the calls of [Encode] so far, oldest first, each with
      its outcome: the entries with [None] are the messages on the wire;
    - [deadline] is the current read/write deadline ([None]: never set);
    - [closed] tells whether [Close] was called. *)
Record Conn := {
  rd : list byte;
  rd_end : error;
  wfail : nat → option error;
  wlog : list (Envelope * option error);
  deadline : option Z;
  closed : bool
}.

Definition MaxReqSize : nat := 1024.

Definition LF : byte := x0a.
Definition CR : byte := x0d.

(** Position of the first line feed. *)
Fixpoint index_LF (l : list byte) : option nat :=
  match l with
  | [] => None
  | b :: l' => if Byte.eqb b LF then Some 0 else S <$> index_LF l'
  end.

(** Removes a final carriage return, as [ReadLine] does for a line that
    ended in CR LF. *)
Definition drop_CR (line : list byte) : list byte :=
  match list.last line with
  | Some b => if Byte.eqb b CR then removelast line else line
  | None => line
  end.

Definition with_rd (c : Conn) (r : list byte) : Conn :=
  {| rd := r; rd_end := rd_end c; wfail := wfail c; wlog := wlog c;
     deadline := deadline c; closed := closed c |}.

(** [bufio.Reader.ReadLine] of the Go standard library on a reader of
    [MaxReqSize] bytes, which blocks until it holds a line feed, a full
    buffer, or the end of the stream:
    - a line feed among the first [MaxReqSize] bytes: the line without its
      terminator (LF or CR LF), [isPrefix = false], no error;
    - no line feed and a full buffer ([ErrBufferFull]): the buffer,
      [isPrefix = true] and a [nil] error; a final CR is left for the next
      call;
    - otherwise the bytes that remain, with no error; and once nothing
      remains, the error of the transport. *)
Definition ReadLine (c : Conn) : list byte * bool * option error * Conn :=
  let buf := take MaxReqSize (rd c) in
  match index_LF buf with
  | Some i => (drop_CR (take i buf), false, None, with_rd c (drop (S i) (rd c)))
  | None =>
      if bool_decide (MaxReqSize ≤ length (rd c)) then
        match list.last buf with
        | Some b =>
            if Byte.eqb b CR
            then (removelast buf, true, None, with_rd c (drop (MaxReqSize - 1) (rd c)))
            else (buf, true, None, with_rd c (drop MaxReqSize (rd c)))
        | None => (buf, true, None, with_rd c (drop MaxReqSize (rd c)))
        end
      else
        match rd c with
        | [] => ([], false, Some (rd_end c), c)
        | _ :: _ => (rd c, false, None, with_rd c [])
        end
  end.

(** What the next write on [c] answers: it fails on a closed connection
    and otherwise as the transport decides. *)
Definition write_outcome (c : Conn) : option error :=
  if closed c then Some net_ErrClosed else wfail c (length (wlog c)).

(** [json.Encoder.Encode] on the connection: one write. *)
Definition Encode (c : Conn) (m : Envelope) : Conn * option error :=
  let r := write_outcome c in
  ({| rd := rd c; rd_end := rd_end c; wfail := wfail c;
      wlog := wlog c ++ [(m, r)];
      deadline := deadline c; closed := closed c |}, r).

(** [net.TCPConn.SetDeadline]; on a closed connection it returns an error,
    which stratum.go drops, and sets nothing. *)
Definition SetDeadline (c : Conn) (t : Z) : Conn :=
  if closed c then c else
  {| rd := rd c; rd_end := rd_end c; wfail := wfail c; wlog := wlog c;
     deadline := Some t; closed := closed c |}.

(** [net.TCPConn.Close]. *)
Definition Close (c : Conn) : Conn :=
  {| rd := rd c; rd_end := rd_end c; wfail := wfail c; wlog := wlog c;
     deadline := deadline c; closed := true |}.

(** The messages that reached the peer. *)
Definition wire (c : Conn) : list Envelope :=
  fst <$> filter (λ e, e.2 = None) (wlog c).

(** ** The identifier on the wire

    [Encode] above records the envelope that stratum.go hands to the
    encoder.  The bytes that [json.Encoder] of the Go standard library
    writes for the [Id] field of a [JSONRpcResp], a [json.RawMessage], are
    not the field itself: [RawMessage.MarshalJSON] answers [null] for a
    [nil] message, and the encoder passes any other message through
    [compact] with the HTML escaping that an encoder has by default.  The
    definitions below follow [encoding/json] for a message that holds a
    JSON value, as the identifier of a decoded request does (for other
    bytes the encoder returns an error and writes nothing); the empty
    list stands for the [nil] message of a request without an id. *)

(** [isSpace] of scanner.go. *)
Definition isSpace (c : byte) : bool :=
  Byte.eqb c x20 || Byte.eqb c x09 || Byte.eqb c x0d || Byte.eqb c x0a.

(** [hex] of encode.go. *)
Definition hex (n : N) : byte :=
  nth (N.to_nat n) (String.list_byte_of_string "0123456789abcdef") x30.

(** What [compact] needs of the scanner: whether the next byte is inside a
    string literal ([stateInString]), follows a backslash inside one
    ([stateInStringEsc]; the states of a [\u] escape behave like
    [stateInString] here), or is anywhere else in the value. *)
Inductive scanner : Type :=
  | stateValue
  | stateInString
  | stateInStringEsc.

(** [scanner.step]. *)
Definition step (s : scanner) (c : byte) : scanner :=
  match s with
  | stateValue => if Byte.eqb c x22 then stateInString else stateValue
  | stateInString =>
      if Byte.eqb c x22 then stateValue
      else if Byte.eqb c x5c then stateInStringEsc
      else stateInString
  | stateInStringEsc => stateInString
  end.

(** The step answers [scanSkipSpace]: white space outside a string. *)
Definition scanSkipSpace (s : scanner) (c : byte) : bool :=
  match s with
  | stateValue => isSpace c
  | stateInString | stateInStringEsc => false
  end.

(** [compact] of indent.go with [escape = true]: [<], [>] and [&] are
    written as the six bytes of a [\u00..] escape (3c, 3e and 26), the
    three bytes of U+2028 and U+2029 as the escapes [\u2028] and
    [\u2029], white space between the tokens is dropped, and every
    other byte is copied. *)
Fixpoint compact (s : scanner) (src : list byte) : list byte :=
  match src with
  | [] => []
  | c :: rest =>
      if Byte.eqb c x3c || Byte.eqb c x3e || Byte.eqb c x26 then
        [x5c; x75; x30; x30]
          ++ hex (N.shiftr (Byte.to_N c) 4) :: hex (N.land (Byte.to_N c) 15)
          :: compact (step s c) rest
      else
        match rest with
        | c1 :: c2 :: rest' =>
            if Byte.eqb c xe2 && Byte.eqb c1 x80 && (Byte.eqb c2 xa8 || Byte.eqb c2 xa9) then
              [x5c; x75; x32; x30; x32]
                ++ hex (N.land (Byte.to_N c2) 15)
                :: compact (step (step (step s c) c1) c2) rest'
            else if scanSkipSpace s c then compact (step s c) rest
            else c :: compact (step s c) rest
        | _ =>
            if scanSkipSpace s c then compact (step s c) rest
            else c :: compact (step s c) rest
        end
  end.

(** The bytes written for a [json.RawMessage] field. *)
Definition Marshal_RawMessage (m : RawMessage) : list byte :=
  match m with
  | [] => String.list_byte_of_string "null"
  | _ :: _ => compact stateValue m
  end.

(** The bytes written for the [Id] of a response. *)
Definition written_Id (m : JSONRpcResp) : list byte :=
  Marshal_RawMessage (resp_Id m).

(** The identifiers of the responses that reached the peer, as written. *)
Definition written_Ids (c : Conn) : list (list byte) :=
  omap (λ e, match e with
             | RpcResp m => Some (written_Id m)
             | PushMessage _ => None
             end) (wire c).

(** A byte that [compact] copies wherever it stands. *)
Definition plain_byte (c : byte) : bool :=
  negb (isSpace c || Byte.eqb c x3c || Byte.eqb c x3e || Byte.eqb c x26
        || Byte.eqb c xe2).

(** An identifier that is present and made of such bytes: a number, or a
    string without white space, [<], [>], [&] and non-ASCII text. *)
Definition plain_id (id : RawMessage) : Prop :=
  id ≠ [] ∧ Forall (λ c, plain_byte c = true) id.

(** ** The proxy server and its collaborators *)

(** Calls into the Policy Gateway ([s.policy]), in the order they were
    made.  Modelled from the spec: the policy engine is external; it
    records ban and malformed-request events. *)
Inductive PolicyCall : Type :=
  | BanClient (ip : string)
  | ApplyMalformedPolicy (ip : string).

(** Modelled from the spec: one entry of [s.config.Proxy.Stratum], whose
    declaration is not in stratum.go. *)
Record StratumConfig := { Name : string; Listen : string; Difficulty : Z }.

(** Modelled from the spec: the block template read by the broadcaster. *)
Record BlockTemplate := { Header : string; Seed : string }.

(** Modelled from the spec: one entry of [s.stratum], whose declaration is
    not in stratum.go: the timeout and difficulty of the endpoint and its
    registry, the set [sessions] of [*Session] keys. *)
Record Stratum := { timeout : Z; diff : string; sessions : gset Session }.

(** The outcome of a JSON decoding. *)
Inductive decoded (A : Type) : Type :=
  | Decoded (a : A)
  | Malformed (e : error).
Arguments Decoded {A} a.
Arguments Malformed {A} e.

Section Proxy.

(** The state the RPC handlers, the block-template source and the storage
    backend keep for themselves. *)
Context {HState : Type}.

(** The part of [ProxyServer] that stratum.go and the RPC handlers share. *)
Record ProxyServer := {
  stratum : list Stratum;
  policy : list PolicyCall;
  ext : HState
}.

(** Modelled from the spec: the collaborators of stratum.go that live
    outside it.  The clock ([clock n] is the [n]-th reading of
    [time.Now]), the configuration (immutable after load), the decoders of
    [encoding/json], the RPC handlers (they work on the server and return
    a result value or a structured error; the Session Handler writes the
    reply), the block-template source, the storage backend, and the order
    in which [range] walks a Go map, which the language leaves open.  The
    handlers register sessions but never resize [s.stratum]. *)
Class Collaborators := {
  clock : nat → Z;
  config_Name : string;
  config_Stratum : list StratumConfig;
  json_Unmarshal_StratumReq : list byte → decoded StratumReq;
  json_Unmarshal_strings : RawMessage → decoded (list string);
  handleLoginRPC :
    Session → list string → string → ProxyServer →
    ProxyServer * (JSONValue * option ErrorReply);
  handleGetWorkRPC :
    Session → ProxyServer → ProxyServer * (JSONValue * option ErrorReply);
  handleTCPSubmitRPC :
    Session → string → list string → ProxyServer →
    ProxyServer * (JSONValue * option ErrorReply);
  handleUnknownRPC :
    Session → string → ProxyServer → ProxyServer * option ErrorReply;
  currentBlockTemplate : ProxyServer → option BlockTemplate;
  isSick : ProxyServer → bool;
  WriteStratumState : string → string → string → nat → Z → HState → HState;
  range_order : gset Session → list Session;
  range_order_perm : ∀ X, range_order X ≡ₚ elements X;
  handleLoginRPC_endpoints : ∀ cs params worker s,
    length (stratum (handleLoginRPC cs params worker s).1) = length (stratum s);
  handleGetWorkRPC_endpoints : ∀ cs s,
    length (stratum (handleGetWorkRPC cs s).1) = length (stratum s);
  handleTCPSubmitRPC_endpoints : ∀ cs worker params s,
    length (stratum (handleTCPSubmitRPC cs worker params s).1) = length (stratum s);
  handleUnknownRPC_endpoints : ∀ cs m s,
    length (stratum (handleUnknownRPC cs m s).1) = length (stratum s)
}.

Context `{!Collaborators}.

(** The whole state: the server, the transport of every session, and the
    number of clock readings taken so far. *)
Record World := {
  srv : ProxyServer;
  conns : Session → Conn;
  ticks : nat
}.

(** ** Computations: state, panics, and fuel for the read loop *)

Inductive Res (A : Type) : Type :=
  | Ret (a : A) (w : World)
  | Panic
  | OutOfFuel.
Arguments Ret {A} a w.
Arguments Panic {A}.
Arguments OutOfFuel {A}.

Definition M (A : Type) : Type := World → Res A.

Definition ret {A} (a : A) : M A := λ w, Ret a w.

Definition bind {A B} (m : M A) (k : A → M B) : M B :=
  λ w, match m w with
       | Ret a w' => k a w'
       | Panic => Panic
       | OutOfFuel => OutOfFuel
       end.

Definition panic {A} : M A := λ _, Panic.
Definition out_of_fuel {A} : M A := λ _, OutOfFuel.

Notation "x <- m ;; k" := (bind m (λ x, k))
  (at level 100, m at next level, right associativity).

(** [l[i]] on a slice: a panic when [i] is out of range. *)
Definition index {A} (l : list A) (i : nat) : M A :=
  match l !! i with
  | Some x => ret x
  | None => panic
  end.

Definition get_srv : M ProxyServer := λ w, Ret (srv w) w.

(** The world in which the server is [s]. *)
Definition with_srv (w : World) (s : ProxyServer) : World :=
  {| srv := s; conns := conns w; ticks := ticks w |}.

(** A collaborator working on the server. *)
Definition lift_srv {A} (f : ProxyServer → ProxyServer * A) : M A :=
  λ w, let r := f (srv w) in Ret r.2 (with_srv w r.1).

Definition get_conn (cs : Session) : M Conn := λ w, Ret (conns w cs) w.

(** The world in which the transport of [cs] is [c]. *)
Definition upd_conn (w : World) (cs : Session) (c : Conn) : World :=
  {| srv := srv w; conns := <[cs := c]> (conns w); ticks := ticks w |}.

Definition set_conn (cs : Session) (c : Conn) : M unit :=
  λ w, Ret tt (upd_conn w cs c).

(** The world after one more reading of the clock. *)
Definition tick (w : World) : World :=
  {| srv := srv w; conns := conns w; ticks := S (ticks w) |}.

(** [time.Now()]: the next reading of the clock. *)
Definition time_Now : M Z := λ w, Ret (clock (ticks w)) (tick w).

(** The server after one more call into the Policy Gateway. *)
Definition with_policy (s : ProxyServer) (c : PolicyCall) : ProxyServer :=
  {| stratum := stratum s; policy := policy s ++ [c]; ext := ext s |}.

Definition policy_call (c : PolicyCall) : M unit :=
  lift_srv (λ s, (with_policy s c, tt)).

(** [cs.enc.Encode(&message)]. *)
Definition conn_Encode (cs : Session) (m : Envelope) : M (option error) :=
  c <- get_conn cs ;;
  _ <- set_conn cs (Encode c m).1 ;;
  ret (Encode c m).2.

(** ** stratum.go *)

Definition sendTCPResult (cs : Session) (id : RawMessage) (result : JSONValue)
  : M (option error) :=
  let message := {| resp_Id := id; resp_Version := "2.0";
                    resp_Result := result; resp_Error := None |} in
  conn_Encode cs (RpcResp message).

Definition pushNewJob (cs : Session) (result : JSONValue) : M (option error) :=
  let message := {| push_Version := "2.0"; push_Result := result; push_Id := 0 |} in
  conn_Encode cs (PushMessage message).

(** [reply] is a [*ErrorReply]: reading [reply.Message] through a nil
    pointer panics, after the envelope was written. *)
Definition sendTCPError (cs : Session) (id : RawMessage) (reply : option ErrorReply)
  : M (option error) :=
  let message := {| resp_Id := id; resp_Version := "2.0";
                    resp_Result := JNull; resp_Error := reply |} in
  err <- conn_Encode cs (RpcResp message) ;;
  match err with
  | Some e => ret (Some e)
  | None =>
      match reply with
      | Some r => ret (Some (errors_New (Message r)))
      | None => panic
      end
  end.

Definition setDeadline (cs : Session) : M unit :=
  now <- time_Now ;;
  st <- (s <- get_srv ;; index (stratum s) (s_id cs)) ;;
  c <- get_conn cs ;;
  set_conn cs (SetDeadline c (now + timeout st)).

Definition with_sessions (st : Stratum) (X : gset Session) : Stratum :=
  {| timeout := timeout st; diff := diff st; sessions := X |}.

Definition with_stratum (s : ProxyServer) (l : list Stratum) : ProxyServer :=
  {| stratum := l; policy := policy s; ext := ext s |}.

(** [stratum.sessions[cs] = struct{}{}] on the registry of [cs]'s endpoint;
    [None] is the panic of an index out of range. *)
Definition registerSession (cs : Session) (s : ProxyServer) : option ProxyServer :=
  st ← stratum s !! s_id cs;
  Some (with_stratum s (<[s_id cs := with_sessions st ({[cs]} ∪ sessions st)]> (stratum s))).

(** [delete(stratum.sessions, cs)] on the registry of [cs]'s endpoint. *)
Definition removeSession (cs : Session) (s : ProxyServer) : option ProxyServer :=
  st ← stratum s !! s_id cs;
  Some (with_stratum s (<[s_id cs := with_sessions st (sessions st ∖ {[cs]})]> (stratum s))).

(** A registry operation as a step of the server. *)
Definition on_srv (f : ProxyServer → option ProxyServer) : M unit :=
  λ w, match f (srv w) with
       | Some s' => Ret tt (with_srv w s')
       | None => Panic
       end.

Definition is_login (m : string) : bool :=
  (m =? "eth_submitLogin")%string || (m =? "eth_login")%string.

Definition handleTCPMessage (cs : Session) (req : StratumReq) : M (option error) :=
  _ <- index config_Stratum (s_id cs) ;;
  if is_login (Method req) then
    match json_Unmarshal_strings (Params req) with
    | Malformed err => ret (Some err)
    | Decoded params =>
        r <- lift_srv (handleLoginRPC cs params (Worker req)) ;;
        match r.2 with
        | Some errReply => sendTCPError cs (Id req) (Some errReply)
        | None => sendTCPResult cs (Id req) r.1
        end
    end
  else if (Method req =? "eth_getWork")%string then
    r <- lift_srv (handleGetWorkRPC cs) ;;
    match r.2 with
    | Some errReply => sendTCPError cs (Id req) (Some errReply)
    | None => sendTCPResult cs (Id req) r.1
    end
  else if (Method req =? "eth_submitWork")%string then
    match json_Unmarshal_strings (Params req) with
    | Malformed err => ret (Some err)
    | Decoded params =>
        r <- lift_srv (handleTCPSubmitRPC cs (Worker req) params) ;;
        match r.2 with
        | Some errReply => sendTCPError cs (Id req) (Some errReply)
        | None => sendTCPResult cs (Id req) r.1
        end
    end
  else if (Method req =? "eth_submitHashrate")%string then
    sendTCPResult cs (Id req) (JBool true)
  else
    errReply <- lift_srv (handleUnknownRPC cs (Method req)) ;;
    sendTCPError cs (Id req) errReply.

(** How one pass through the body of the [for] loop of [handleTCPClient]
    ends. *)
Inductive Step : Type :=
  | Continue
  | Break
  | Return (err : option error).

Definition handleTCPClient_iter (cs : Session) : M Step :=
  c <- get_conn cs ;;
  let '(data, isPrefix, err, c') := ReadLine c in
  _ <- set_conn cs c' ;;
  if isPrefix : bool then
    _ <- policy_call (BanClient (ip cs)) ;;
    ret (Return err)
  else
    match err with
    | Some io_EOF =>
        _ <- on_srv (removeSession cs) ;;
        ret Break
    | Some e => ret (Return (Some e))
    | None =>
        if bool_decide (1 < length data) then
          match json_Unmarshal_StratumReq data with
          | Malformed e =>
              _ <- policy_call (ApplyMalformedPolicy (ip cs)) ;;
              ret (Return (Some e))
          | Decoded req =>
              _ <- setDeadline cs ;;
              e <- handleTCPMessage cs req ;;
              match e with
              | Some e' => ret (Return (Some e'))
              | None => ret Continue
              end
          end
        else ret Continue
    end.

Fixpoint handleTCPClient_loop (fuel : nat) (cs : Session) : M (option error) :=
  match fuel with
  | 0 => out_of_fuel
  | S fuel' =>
      st <- handleTCPClient_iter cs ;;
      match st with
      | Continue => handleTCPClient_loop fuel' cs
      | Break => ret None
      | Return err => ret err
      end
  end.

(** Every pass consumes a byte of input or leaves the loop, so one more
    pass than there are bytes is enough. *)
Definition handleTCPClient (cs : Session) : M (option error) :=
  _ <- setDeadline cs ;;
  _ <- index config_Stratum (s_id cs) ;;
  c <- get_conn cs ;;
  handleTCPClient_loop (S (length (rd c))) cs.

(** [conn.Close()] on the transport of [cs]. *)
Definition conn_Close (cs : Session) : M unit :=
  c <- get_conn cs ;;
  set_conn cs (Close c).

(** What the goroutine of [ListenTCP] does once the handler returned. *)
Definition ListenTCP_cleanup (cs : Session) (err : option error) : M unit :=
  match err with
  | Some _ =>
      _ <- on_srv (removeSession cs) ;;
      conn_Close cs
  | None => ret tt
  end.

(** The goroutine [ListenTCP] starts for an admitted session. *)
Definition ListenTCP_go (cs : Session) : M unit :=
  err <- handleTCPClient cs ;;
  ListenTCP_cleanup cs err.

(** The goroutine [broadcastNewJobs] starts for one member. *)
Definition broadcast_go (reply : JSONValue) (cs : Session) : M unit :=
  err <- pushNewJob cs reply ;;
  match err with
  | Some _ => on_srv (removeSession cs)
  | None => setDeadline cs
  end.

Fixpoint for_each {A} (f : A → M unit) (l : list A) : M unit :=
  match l with
  | [] => ret tt
  | x :: l' => _ <- f x ;; for_each f l'
  end.

(** The members are enumerated under the read lock, so the goroutines,
    which need the write lock to remove a session, see the registry of the
    snapshot; they are run here one after the other in the order of the
    enumeration. *)
Definition broadcastNewJobs (i : nat) : M unit :=
  stratumConfig <- index config_Stratum i ;;
  s <- get_srv ;;
  match currentBlockTemplate s with
  | None => ret tt
  | Some t =>
      if (String.length (Header t) =? 0) || isSick s then ret tt
      else
        st <- index (stratum s) i ;;
        let reply := JStrings [Header t; Seed t; diff st] in
        let count := size (sessions st) in
        _ <- lift_srv (λ s, ({| stratum := stratum s; policy := policy s;
                                ext := WriteStratumState config_Name
                                         (Name stratumConfig) (Listen stratumConfig)
                                         count (Difficulty stratumConfig) (ext s) |}, tt)) ;;
        start <- time_Now ;;
        _ <- for_each (broadcast_go reply) (range_order (sessions st)) ;;
        _ <- time_Now ;;
        ret tt
  end.

End Proxy.

Arguments Ret {HState A} a w.
Arguments Panic {HState A}.
Arguments OutOfFuel {HState A}.

Notation "x <- m ;; k" := (bind m (λ x, k))
  (at level 100, m at next level, right associativity).

(** ** Admission *)

Section Admission.

Context {HState : Type} `{!@Collaborators HState}.

(** Modelled from the spec: the two questions [ListenTCP] asks the Policy
    Gateway, [IsBanned(ip)] and [ApplyLimitPolicy(ip)]; the gateway answers
    from the state of the server, and the second call may update it. *)
Class PolicyGateway := {
  IsBanned : string → @ProxyServer HState → bool;
  ApplyLimitPolicy : string → @ProxyServer HState → @ProxyServer HState * bool
}.

Context `{!PolicyGateway}.

(** What the accept loop of [ListenTCP] does with one accepted connection,
    [cs] being the session it would build for it; the result tells whether
    the handler was started.  [conn.SetKeepAlive] and the counting channel
    [accept] change nothing of the state kept here, and the handler runs to
    its end before the next connection is looked at. *)
Definition ListenTCP_accept (cs : Session) : M bool :=
  s <- get_srv ;;
  if IsBanned (ip cs) s then
    _ <- conn_Close cs ;;
    ret false
  else
    ok <- lift_srv (ApplyLimitPolicy (ip cs)) ;;
    if ok : bool then
      _ <- ListenTCP_go cs ;;
      ret true
    else
      _ <- conn_Close cs ;;
      ret false.

End Admission.

(** ** A sample deployment

    One endpoint, a clock that advances by a millisecond per reading, and
    collaborators that behave like those of the pool on the request lines
    listed in [sample_requests]: they are used to run the definitions above
    on concrete connections. *)

Definition bytes (s : string) : list byte := String.list_byte_of_string s.

Definition quoted (s : string) : list byte := x22 :: bytes s ++ [x22].

(** The line [{"id":<id>,"method":"<m>","params":<p>}]. *)
Definition request_line (id m : string) (p : list byte) : list byte :=
  bytes "{" ++ quoted "id" ++ bytes ":" ++ bytes id ++ bytes ","
    ++ quoted "method" ++ bytes ":" ++ quoted m ++ bytes ","
    ++ quoted "params" ++ bytes ":" ++ p ++ bytes "}".

Definition bytes_eqb (a b : list byte) : bool :=
  (String.string_of_list_byte a =? String.string_of_list_byte b)%string.

(** The parameters [["0xabc"]]. *)
Definition params_one : list byte := bytes "[" ++ quoted "0xabc" ++ bytes "]".

Definition sample_requests : list (string * string * list byte) :=
  [ ("1", "eth_submitHashrate", bytes "[]");
    ("2", "eth_getWork", bytes "[]");
    ("3", "eth_login", params_one);
    ("4", "eth_submitWork", bytes "{}");
    ("5", "eth_getBalance", bytes "[]");
    ("6", "eth_submitWork", params_one) ].

Definition sample_Unmarshal_StratumReq (data : list byte) : decoded StratumReq :=
  match List.find (λ r, bytes_eqb (request_line r.1.1 r.1.2 r.2) data) sample_requests with
  | Some r => Decoded {| Id := bytes r.1.1; Method := r.1.2; Params := r.2; Worker := "" |}
  | None => Malformed (json_Error "invalid character")
  end.

Definition sample_Unmarshal_strings (p : RawMessage) : decoded (list string) :=
  if bytes_eqb p (bytes "[]") then Decoded []
  else if bytes_eqb p params_one then Decoded ["0xabc"]
  else Malformed (json_Error "cannot unmarshal into Go value of type []string").

Definition sample_server := @ProxyServer unit.

Definition sample_login (cs : Session) (params : list string) (worker : string)
    (s : sample_server) : sample_server * (JSONValue * option ErrorReply) :=
  match params with
  | [] => (s, (JBool false, Some {| Code := -1; Message := "Invalid params" |}))
  | _ :: _ => (default s (registerSession cs s), (JBool true, None))
  end.

Definition sample_getWork (cs : Session) (s : sample_server)
  : sample_server * (JSONValue * option ErrorReply) :=
  (s, (JStrings ["0xheader"; "0xseed"; "0xtarget"], None)).

Definition sample_submit (cs : Session) (worker : string) (params : list string)
    (s : sample_server) : sample_server * (JSONValue * option ErrorReply) :=
  match stratum s !! s_id cs with
  | Some st =>
      if bool_decide (cs ∈ sessions st) then (s, (JBool true, None))
      else (s, (JBool false, Some {| Code := 25; Message := "Not subscribed" |}))
  | None => (s, (JBool false, Some {| Code := 25; Message := "Not subscribed" |}))
  end.

Definition sample_unknown (cs : Session) (m : string) (s : sample_server)
  : sample_server * option ErrorReply :=
  ({| stratum := stratum s; policy := policy s ++ [ApplyMalformedPolicy (ip cs)];
      ext := ext s |},
   Some {| Code := -3; Message := "Method not found" |}).

Lemma sample_login_endpoints cs params worker s :
  length (stratum (sample_login cs params worker s).1) = length (stratum s).
Proof.
  destruct params as [|p ps]; simpl; [done|].
  unfold registerSession.
  destruct (stratum s !! s_id cs) as [st|]; simpl; [|done].
  by rewrite length_insert.
Qed.

Lemma sample_submit_endpoints cs worker params s :
  length (stratum (sample_submit cs worker params s).1) = length (stratum s).
Proof.
  unfold sample_submit.
  destruct (stratum s !! s_id cs) as [st|]; [|done].
  by case_bool_decide.
Qed.

#[global] Instance sample_collaborators : @Collaborators unit := {|
  clock := λ n, (1000000 * Z.of_nat n)%Z;
  config_Name := "pool";
  config_Stratum := [ {| Name := "main"; Listen := "0.0.0.0:8008"; Difficulty := 100 |} ];
  json_Unmarshal_StratumReq := sample_Unmarshal_StratumReq;
  json_Unmarshal_strings := sample_Unmarshal_strings;
  handleLoginRPC := sample_login;
  handleGetWorkRPC := sample_getWork;
  handleTCPSubmitRPC := sample_submit;
  handleUnknownRPC := sample_unknown;
  currentBlockTemplate := λ _, Some {| Header := "0xheader"; Seed := "0xseed" |};
  isSick := λ _, false;
  WriteStratumState := λ _ _ _ _ _ h, h;
  range_order := elements;
  range_order_perm := λ X, reflexivity (elements X);
  handleLoginRPC_endpoints := sample_login_endpoints;
  handleGetWorkRPC_endpoints := λ _ _, eq_refl;
  handleTCPSubmitRPC_endpoints := sample_submit_endpoints;
  handleUnknownRPC_endpoints := λ _ _ _, eq_refl
|}.

(** A gateway that bans one address and lets at most two sessions of an
    address be registered on the first endpoint. *)
#[global] Instance sample_gateway : PolicyGateway (HState := unit) := {|
  IsBanned := λ a _, (a =? "192.0.2.66")%string;
  ApplyLimitPolicy := λ a s,
    (s, bool_decide (size (filter (λ cs, ip cs = a)
                             (from_option sessions ∅ (stratum s !! 0))) < 2))
|}.

(** A connection on which the peer sends [input] and then ends the stream
    with [e]; every write succeeds. *)
Definition sample_conn (input : list byte) (e : error) : Conn :=
  {| rd := input; rd_end := e; wfail := λ _, None; wlog := [];
     deadline := None; closed := false |}.

(** A connection whose writes all fail. *)
Definition broken_conn : Conn :=
  {| rd := []; rd_end := net_Error "connection reset by peer";
     wfail := λ _, Some (net_Error "broken pipe"); wlog := [];
     deadline := None; closed := false |}.

Definition sample_session : Session :=
  {| s_ptr := 1; s_id := 0; ip := "203.0.113.7" |}.

Definition other_session : Session :=
  {| s_ptr := 2; s_id := 0; ip := "198.51.100.9" |}.

(** The endpoint with the given registry; its timeout is five seconds. *)
Definition sample_srv (X : gset Session) : sample_server :=
  {| stratum := [ {| timeout := 5000000000; diff := "0xdiff"; sessions := X |} ];
     policy := []; ext := tt |}.

(** The world in which [sample_session] is registered and sends [input]. *)
Definition sample_world (input : list byte) (e : error) : World :=
  {| srv := sample_srv {[ sample_session ]};
     conns := λ _, sample_conn input e;
     ticks := 0 |}.

(** A connection whose deadline was set at the first reading of the
    clock and whose writes succeed. *)
Definition live_conn : Conn :=
  {| rd := []; rd_end := net_Error "i/o timeout"; wfail := λ _, None; wlog := [];
     deadline := Some 5000000000%Z; closed := false |}.

(** The world of a broadcast: two members, the second behind a broken
    connection; the clock was read once. *)
Definition broadcast_world : World :=
  {| srv := sample_srv {[ sample_session; other_session ]};
     conns := λ cs, if decide (cs = other_session) then broken_conn else live_conn;
     ticks := 1 |}.

Definition req_hashrate : StratumReq :=
  {| Id := bytes "1"; Method := "eth_submitHashrate"; Params := bytes "[]"; Worker := "" |}.

Definition req_login : StratumReq :=
  {| Id := bytes "3"; Method := "eth_login"; Params := params_one; Worker := "" |}.

(** The request of the line
    [{"id":[1, 2],"method":"eth_getWork","params":[]}]: the decoder keeps
    the bytes of the id as they stand in the line. *)
Definition req_spaced_id : StratumReq :=
  {| Id := bytes "[1, 2]"; Method := "eth_getWork"; Params := bytes "[]"; Worker := "" |}.

(** The request of the line
    [{"id":"<1>","method":"eth_getWork","params":[]}]. *)
Definition req_html_id : StratumReq :=
  {| Id := quoted "<1>"; Method := "eth_getWork"; Params := bytes "[]"; Worker := "" |}.

Definition req_bad_params : StratumReq :=
  {| Id := bytes "4"; Method := "eth_submitWork"; Params := bytes "{}"; Worker := "" |}.

Definition req_unknown : StratumReq :=
  {| Id := bytes "5"; Method := "eth_getBalance"; Params := bytes "[]"; Worker := "" |}.

Definition line_hashrate : list byte := request_line "1" "eth_submitHashrate" (bytes "[]").
Definition line_bad_params : list byte := request_line "4" "eth_submitWork" (bytes "{}").
Definition line_unknown : list byte := request_line "5" "eth_getBalance" (bytes "[]").

(** A line that is not JSON. *)
Definition line_garbage : list byte := bytes "GET / HTTP/1.1".

(** What a run that returned left behind, seen through [f]. *)
Definition outcome {HState A B} (r : @Res HState A) (f : A → @World HState → B)
  : option B :=
  match r with
  | Ret a w => Some (f a w)
  | Panic | OutOfFuel => None
  end.

Definition registeredb {HState} (s : @ProxyServer HState) (cs : Session) : bool :=
  match stratum s !! s_id cs with
  | Some st => bool_decide (cs ∈ sessions st)
  | None => false
  end.

(** ** Vocabulary of the specification *)

Section Vocabulary.

Context {HState : Type} `{!@Collaborators HState}.

(** [cs] is in the registry of endpoint [i]. *)
Definition member (s : @ProxyServer HState) (i : nat) (cs : Session) : Prop :=
  ∃ st, stratum s !! i = Some st ∧ cs ∈ sessions st.

(** The endpoint [i] exists: [s.stratum[i]] and [s.config.Proxy.Stratum[i]]
    are in range, as they are for the index [ListenTCP] was started with. *)
Definition endpoint_ok (s : @ProxyServer HState) (i : nat) : Prop :=
  i < length (stratum s) ∧ i < length config_Stratum.

(** The RPC handler the specification delegates a request to: the login
    handler for [eth_submitLogin] and [eth_login], the work-assignment
    handler for [eth_getWork], the submission handler for [eth_submitWork];
    the first and the last when the parameters decode as a sequence of
    strings. *)
Inductive rpc_handler (cs : Session) (req : StratumReq)
  : (@ProxyServer HState → @ProxyServer HState * (JSONValue * option ErrorReply)) → Prop :=
  | rpc_login params :
      Method req = "eth_submitLogin" ∨ Method req = "eth_login" →
      json_Unmarshal_strings (Params req) = Decoded params →
      rpc_handler cs req (handleLoginRPC cs params (Worker req))
  | rpc_getWork :
      Method req = "eth_getWork" →
      rpc_handler cs req (handleGetWorkRPC cs)
  | rpc_submitWork params :
      Method req = "eth_submitWork" →
      json_Unmarshal_strings (Params req) = Decoded params →
      rpc_handler cs req (handleTCPSubmitRPC cs (Worker req) params).

(** Every member of a registry carries the index of the endpoint of that
    registry: a session is in no registry but its own. *)
Definition registry_wf (s : @ProxyServer HState) : Prop :=
  ∀ i cs, member s i cs → s_id cs = i.

(** A method name none of the cases of the dispatch names. *)
Definition unknown_method (m : string) : Prop :=
  m ≠ "eth_submitLogin" ∧ m ≠ "eth_login" ∧ m ≠ "eth_getWork" ∧
  m ≠ "eth_submitWork" ∧ m ≠ "eth_submitHashrate".

(** The result envelope and the error envelope of a reply. *)
Definition result_envelope (id : RawMessage) (v : JSONValue) : Envelope :=
  RpcResp {| resp_Id := id; resp_Version := "2.0"; resp_Result := v; resp_Error := None |}.

Definition error_envelope (id : RawMessage) (reply : ErrorReply) : Envelope :=
  RpcResp {| resp_Id := id; resp_Version := "2.0"; resp_Result := JNull;
             resp_Error := Some reply |}.

(** [c'] is [c] but for the log of writes, which may have grown. *)
Definition same_transport (c c' : Conn) : Prop :=
  rd c' = rd c ∧ rd_end c' = rd_end c ∧ wfail c' = wfail c ∧
  deadline c' = deadline c ∧ closed c' = closed c.

(** What a dispatch may change: the server, through the RPC handlers, but
    not the number of endpoints; and the log of writes of [cs].  The clock
    readings, the deadlines and the other sessions are as before. *)
Definition dispatch_frame (cs : Session) (w w' : @World HState) : Prop :=
  ticks w' = ticks w ∧
  length (stratum (srv w')) = length (stratum (srv w)) ∧
  (∀ cs', cs' ≠ cs → conns w' cs' = conns w cs') ∧
  same_transport (conns w cs) (conns w' cs).

End Vocabulary.

(** ** Properties *)

Section Facts.

Context {HState : Type} `{!@Collaborators HState}.

Implicit Types (s : @ProxyServer HState) (w : @World HState) (cs : Session)
  (c : Conn) (st : Stratum).

(** *** The registry *)

Lemma removeSession_Some s cs st :
  stratum s !! s_id cs = Some st →
  removeSession cs s =
    Some (with_stratum s (<[s_id cs := with_sessions st (sessions st ∖ {[cs]})]> (stratum s))).
Proof. intros Hst. unfold removeSession. by rewrite Hst. Qed.

Lemma removeSession_member s s' cs i cs' :
  removeSession cs s = Some s' →
  member s' i cs' ↔ member s i cs' ∧ ¬ (i = s_id cs ∧ cs' = cs).
Proof.
  unfold removeSession.
  destruct (stratum s !! s_id cs) as [st|] eqn:Hst; simpl; [|done].
  intros [= <-]. unfold member; simpl.
  destruct (decide (i = s_id cs)) as [->|Hne].
  - rewrite list_lookup_insert_eq by (by eapply lookup_lt_Some).
    split.
    + intros (st' & [= <-] & Hin). simpl in Hin.
      split; [exists st; set_solver | set_solver].
    + intros [(st' & Hst' & Hin) Hn]. rewrite Hst in Hst'. injection Hst' as <-.
      eexists; split; [done|]. simpl. set_solver.
  - rewrite list_lookup_insert_ne by done. naive_solver.
Qed.

Lemma removeSession_absent s cs st :
  stratum s !! s_id cs = Some st → cs ∉ sessions st → removeSession cs s = Some s.
Proof.
  intros Hst Hnin. rewrite (removeSession_Some _ _ _ Hst). f_equal.
  assert (sessions st ∖ {[cs]} = sessions st) as -> by set_solver.
  assert (with_sessions st (sessions st) = st) as -> by by destruct st.
  rewrite list_insert_id by done. by destruct s.
Qed.

Lemma removeSession_not_member s s' cs :
  removeSession cs s = Some s' → ¬ member s' (s_id cs) cs.
Proof. intros Hr Hm. apply (removeSession_member _ _ _ _ _ Hr) in Hm. naive_solver. Qed.

Lemma registerSession_member s s' cs i cs' :
  registerSession cs s = Some s' →
  member s' i cs' ↔ member s i cs' ∨ (i = s_id cs ∧ cs' = cs).
Proof.
  unfold registerSession.
  destruct (stratum s !! s_id cs) as [st|] eqn:Hst; simpl; [|done].
  intros [= <-]. unfold member; simpl.
  destruct (decide (i = s_id cs)) as [->|Hne].
  - rewrite list_lookup_insert_eq by (by eapply lookup_lt_Some).
    split.
    + intros (st' & [= <-] & Hin). simpl in Hin.
      apply elem_of_union in Hin as [Hin|Hin]; [right; set_solver|left; eauto].
    + intros [(st' & Hst' & Hin)|[_ ->]].
      * rewrite Hst in Hst'. injection Hst' as <-.
        eexists; split; [done|]. simpl. set_solver.
      * eexists; split; [done|]. simpl. set_solver.
  - rewrite list_lookup_insert_ne by done. naive_solver.
Qed.

(** Out of range the index panics. *)
Lemma removeSession_out_of_range s cs :
  length (stratum s) ≤ s_id cs → removeSession cs s = None.
Proof.
  intros Hge. unfold removeSession. by rewrite (lookup_ge_None_2 _ _ Hge).
Qed.

Lemma registerSession_wf s s' cs :
  registerSession cs s = Some s' → registry_wf s → registry_wf s'.
Proof.
  intros Hr Hwf i cs' Hm. apply (registerSession_member _ _ _ _ _ Hr) in Hm.
  destruct Hm as [Hm|[-> ->]]; [by apply Hwf|done].
Qed.

Lemma removeSession_wf s s' cs :
  removeSession cs s = Some s' → registry_wf s → registry_wf s'.
Proof.
  intros Hr Hwf i cs' Hm. apply (removeSession_member _ _ _ _ _ Hr) in Hm.
  apply Hwf, Hm.
Qed.

(** C10. [removeSession] never fails on a session of a configured endpoint
    (the index it uses is the one [ListenTCP] built the session with); it
    deletes the membership of [cs] in the registry of its own endpoint and
    no other membership, on any endpoint; when [cs] is not a member the
    server is left as it was; and a second removal changes nothing. *)
Theorem removeSession_total_idempotent s cs :
  s_id cs < length (stratum s) →
  ∃ s',
    removeSession cs s = Some s' ∧
    (∀ i cs', member s' i cs' ↔ member s i cs' ∧ ¬ (i = s_id cs ∧ cs' = cs)) ∧
    (¬ member s (s_id cs) cs → s' = s) ∧
    removeSession cs s' = Some s'.
Proof.
  intros Hlt.
  destruct (lookup_lt_is_Some_2 _ _ Hlt) as [st Hst].
  pose proof (removeSession_Some _ _ _ Hst) as Hr.
  eexists. split; [exact Hr|].
  split; [intros i cs'; by apply removeSession_member|].
  split.
  - intros Hnm.
    assert (cs ∉ sessions st) as Hnin by (intros Hin; apply Hnm; by exists st).
    pose proof (removeSession_absent _ _ _ Hst Hnin) as Hr'. congruence.
  - set (s' := with_stratum s _) in *.
    assert (stratum s' !! s_id cs = Some (with_sessions st (sessions st ∖ {[cs]}))) as Hst'.
    { simpl. by rewrite list_lookup_insert_eq. }
    apply (removeSession_absent _ _ _ Hst'). simpl. set_solver.
Qed.

(** *** The reply primitives *)

Lemma Encode_wlog c m : wlog (Encode c m).1 = wlog c ++ [(m, write_outcome c)].
Proof. reflexivity. Qed.

Lemma conn_Encode_run cs m w :
  conn_Encode cs m w = Ret (write_outcome (conns w cs)) (upd_conn w cs (Encode (conns w cs) m).1).
Proof. reflexivity. Qed.

Lemma upd_conn_same w cs c : conns (upd_conn w cs c) cs = c.
Proof. simpl. apply fn_lookup_insert. Qed.

Lemma upd_conn_other w cs cs' c : cs ≠ cs' → conns (upd_conn w cs c) cs' = conns w cs'.
Proof. intros Hne. simpl. by apply fn_lookup_insert_ne. Qed.

Lemma sendTCPResult_run cs id v w :
  sendTCPResult cs id v w =
    Ret (write_outcome (conns w cs))
        (upd_conn w cs (Encode (conns w cs) (result_envelope id v)).1).
Proof. reflexivity. Qed.

Lemma sendTCPError_run cs id reply w :
  sendTCPError cs id (Some reply) w =
    Ret (Some (match write_outcome (conns w cs) with
               | Some e => e
               | None => errors_New (Message reply)
               end))
        (upd_conn w cs (Encode (conns w cs) (error_envelope id reply)).1).
Proof.
  unfold sendTCPError, bind. rewrite conn_Encode_run.
  by destruct (write_outcome (conns w cs)).
Qed.

(** C5. For every id and every non-nil reply, [sendTCPError] hands the
    envelope [{id, "2.0", error: reply}] to the encoder exactly once and
    returns a non-nil error: the error of the write when the write failed,
    and otherwise a new error made of the message of the reply.  Nothing
    but the transport of the session changes. *)
Theorem sendTCPError_never_succeeds cs id reply w :
  ∃ w',
    sendTCPError cs id (Some reply) w =
      Ret (Some (match write_outcome (conns w cs) with
                 | Some e => e
                 | None => errors_New (Message reply)
                 end)) w' ∧
    wlog (conns w' cs) =
      wlog (conns w cs) ++
        [(RpcResp {| resp_Id := id; resp_Version := "2.0"; resp_Result := JNull;
                     resp_Error := Some reply |},
          write_outcome (conns w cs))] ∧
    srv w' = srv w ∧ ticks w' = ticks w ∧
    (∀ cs', cs' ≠ cs → conns w' cs' = conns w cs').
Proof.
  eexists. split; [apply sendTCPError_run|].
  rewrite upd_conn_same. split; [apply Encode_wlog|].
  split; [done|]. split; [done|].
  intros cs' Hne. by apply upd_conn_other.
Qed.

(** *** Dispatch *)

Lemma index_run {A} (l : list A) i x w : l !! i = Some x → index l i w = Ret x w.
Proof. intros Hl. unfold index. by rewrite Hl. Qed.

Lemma is_login_true m :
  is_login m = true ↔ m = "eth_submitLogin" ∨ m = "eth_login".
Proof.
  unfold is_login. rewrite orb_true_iff, !String.eqb_eq. done.
Qed.

Lemma unknown_method_eqb m :
  unknown_method m →
  is_login m = false ∧ (m =? "eth_getWork")%string = false ∧
  (m =? "eth_submitWork")%string = false ∧ (m =? "eth_submitHashrate")%string = false.
Proof.
  intros (H1 & H2 & H3 & H4 & H5). unfold is_login.
  rewrite orb_false_iff, !String.eqb_neq. done.
Qed.

(** The reply of a handler, as the dispatch sends it. *)
Lemma reply_run cs id (r : JSONValue * option ErrorReply) w :
  match r.2 with
  | Some errReply => sendTCPError cs id (Some errReply)
  | None => sendTCPResult cs id r.1
  end w =
  Ret (match r.2 with
       | Some errReply =>
           Some (match write_outcome (conns w cs) with
                 | Some e => e
                 | None => errors_New (Message errReply)
                 end)
       | None => write_outcome (conns w cs)
       end)
      (upd_conn w cs (Encode (conns w cs)
         (match r.2 with
          | Some errReply => error_envelope id errReply
          | None => result_envelope id r.1
          end)).1).
Proof.
  destruct r as [v [errReply|]]; simpl.
  - apply sendTCPError_run.
  - apply sendTCPResult_run.
Qed.

Lemma handleTCPMessage_delegates cs req h w :
  s_id cs < length config_Stratum →
  rpc_handler cs req h →
  handleTCPMessage cs req w =
    (r <- lift_srv h ;;
     match r.2 with
     | Some errReply => sendTCPError cs (Id req) (Some errReply)
     | None => sendTCPResult cs (Id req) r.1
     end) w.
Proof.
  intros Hlt Hh.
  destruct (lookup_lt_is_Some_2 _ _ Hlt) as [cfg Hcfg].
  unfold handleTCPMessage. unfold bind at 1. rewrite (index_run _ _ _ _ Hcfg).
  destruct Hh as [params Hm Hp | Hm | params Hm Hp].
  - apply is_login_true in Hm. by rewrite Hm, Hp.
  - by rewrite Hm.
  - by rewrite Hm, Hp.
Qed.

(** [compact] copies an identifier made of plain bytes. *)
Lemma compact_plain (sc : scanner) (id : RawMessage) :
  Forall (λ b : byte, plain_byte b = true) id → compact sc id = id.
Proof.
  intros Hid. revert sc. induction Hid as [|b rest Hb _ IH]; intros sc; [done|].
  unfold plain_byte in Hb. apply negb_true_iff in Hb.
  do 4 (apply orb_false_iff in Hb; destruct Hb as [Hb ?]).
  assert (scanSkipSpace sc b = false) as Hskip by (by destruct sc).
  assert (Byte.eqb b x3c || Byte.eqb b x3e || Byte.eqb b x26 = false) as Hhtml
    by (repeat (apply orb_false_iff; split); done).
  cbn [compact]. rewrite Hhtml.
  destruct rest as [|b1 [|b2 rest']].
  - by rewrite Hskip, IH.
  - by rewrite Hskip, IH.
  - replace (Byte.eqb b xe2) with false by done. cbn [andb].
    by rewrite Hskip, IH.
Qed.

Lemma Marshal_RawMessage_plain (id : RawMessage) :
  plain_id id → Marshal_RawMessage id = id.
Proof.
  intros [Hne Hid]. destruct id as [|b rest]; [done|].
  by apply compact_plain.
Qed.

(** C6, as the code has it. A request for [eth_submitLogin], [eth_login],
    [eth_getWork] or [eth_submitWork] whose parameters are well formed is
    answered with one call of the encoder: the result envelope when the
    handler returned no error, the error envelope when it returned one.
    The [Id] handed to the encoder is the id of the request; the bytes
    written for it are the encoder's rendering of that id (compacted and
    HTML-escaped, [null] when absent), and they are the request's bytes
    when the id is present and holds no white space, [<], [>], [&] or
    non-ASCII byte. *)
Theorem dispatch_one_response cs req h w :
  s_id cs < length config_Stratum →
  rpc_handler cs req h →
  ∃ err w' m,
    handleTCPMessage cs req w = Ret err w' ∧
    srv w' = (h (srv w)).1 ∧
    wlog (conns w' cs) = wlog (conns w cs) ++ [(RpcResp m, write_outcome (conns w cs))] ∧
    resp_Id m = Id req ∧
    written_Id m = Marshal_RawMessage (Id req) ∧
    (plain_id (Id req) → written_Id m = Id req) ∧
    resp_Version m = "2.0" ∧
    match (h (srv w)).2.2 with
    | None => resp_Result m = (h (srv w)).2.1 ∧ resp_Error m = None
    | Some errReply => resp_Error m = Some errReply
    end ∧
    (∀ cs', cs' ≠ cs → conns w' cs' = conns w cs').
Proof.
  intros Hlt Hh.
  rewrite (handleTCPMessage_delegates _ _ _ _ Hlt Hh).
  unfold bind, lift_srv.
  rewrite reply_run.
  do 2 eexists.
  exists (match (h (srv w)).2.2 with
          | Some errReply =>
              {| resp_Id := Id req; resp_Version := "2.0"; resp_Result := JNull;
                 resp_Error := Some errReply |}
          | None =>
              {| resp_Id := Id req; resp_Version := "2.0";
                 resp_Result := (h (srv w)).2.1; resp_Error := None |}
          end).
  split; [done|]. split; [done|].
  rewrite upd_conn_same, Encode_wlog.
  split; [by destruct ((h (srv w)).2.2)|].
  split; [by destruct ((h (srv w)).2.2)|].
  split; [by destruct ((h (srv w)).2.2)|].
  split.
  { intros Hplain. unfold written_Id.
    replace (resp_Id _) with (Id req) by (by destruct ((h (srv w)).2.2)).
    by apply Marshal_RawMessage_plain. }
  split; [by destruct ((h (srv w)).2.2)|].
  split; [by destruct ((h (srv w)).2.2)|].
  intros cs' Hne. by rewrite upd_conn_other.
Qed.

Lemma handleTCPMessage_submitHashrate cs req w :
  s_id cs < length config_Stratum →
  Method req = "eth_submitHashrate" →
  handleTCPMessage cs req w = sendTCPResult cs (Id req) (JBool true) w.
Proof.
  intros Hlt Hm.
  destruct (lookup_lt_is_Some_2 _ _ Hlt) as [cfg Hcfg].
  unfold handleTCPMessage. unfold bind at 1. rewrite (index_run _ _ _ _ Hcfg).
  by rewrite Hm.
Qed.

(** C8. [eth_submitHashrate] is answered with the envelope
    [{id, "2.0", error: null, result: true}] and nothing else happens: the
    server (registries, policy calls, and the state of the RPC handlers,
    none of which is called) and the clock readings are as before, and of
    the session's transport only the log of writes grows, by this one
    envelope.  A second request is answered the same way, from the same
    server state. *)
Theorem submitHashrate_reply cs req w :
  s_id cs < length config_Stratum →
  Method req = "eth_submitHashrate" →
  let reply := RpcResp {| resp_Id := Id req; resp_Version := "2.0";
                          resp_Result := JBool true; resp_Error := None |} in
  ∃ w1 w2,
    handleTCPMessage cs req w = Ret (write_outcome (conns w cs)) w1 ∧
    srv w1 = srv w ∧ ticks w1 = ticks w ∧
    (∀ cs', cs' ≠ cs → conns w1 cs' = conns w cs') ∧
    wlog (conns w1 cs) = wlog (conns w cs) ++ [(reply, write_outcome (conns w cs))] ∧
    rd (conns w1 cs) = rd (conns w cs) ∧
    deadline (conns w1 cs) = deadline (conns w cs) ∧
    closed (conns w1 cs) = closed (conns w cs) ∧
    handleTCPMessage cs req w1 = Ret (write_outcome (conns w1 cs)) w2 ∧
    srv w2 = srv w ∧ ticks w2 = ticks w ∧
    wlog (conns w2 cs) =
      wlog (conns w cs) ++ [(reply, write_outcome (conns w cs));
                            (reply, write_outcome (conns w1 cs))] ∧
    deadline (conns w2 cs) = deadline (conns w cs) ∧
    closed (conns w2 cs) = closed (conns w cs).
Proof.
  intros Hlt Hm reply.
  do 2 eexists.
  split; [rewrite (handleTCPMessage_submitHashrate _ _ _ Hlt Hm); apply sendTCPResult_run|].
  split; [done|]. split; [done|].
  split; [intros cs' Hne; by apply upd_conn_other|].
  rewrite !upd_conn_same.
  split; [done|]. split; [done|]. split; [done|]. split; [done|].
  split.
  { rewrite (handleTCPMessage_submitHashrate _ _ _ Hlt Hm), sendTCPResult_run.
    by rewrite upd_conn_same. }
  simpl.
  split; [done|]. split; [done|].
  split; [by rewrite <- app_assoc|]. done.
Qed.

(** *** Reading lines *)

Lemma index_LF_lt l i : index_LF l = Some i → i < length l.
Proof.
  revert i. induction l as [|b l IH]; intros i; simpl; [done|].
  destruct (Byte.eqb b LF).
  - intros [= <-]. lia.
  - destruct (index_LF l) as [j|]; simpl; [|done].
    intros [= <-]. specialize (IH j eq_refl). lia.
Qed.

Lemma ReadLine_frame c data p e c' :
  ReadLine c = (data, p, e, c') →
  rd_end c' = rd_end c ∧ wfail c' = wfail c ∧ wlog c' = wlog c ∧
  deadline c' = deadline c ∧ closed c' = closed c.
Proof.
  unfold ReadLine.
  destruct (index_LF (take MaxReqSize (rd c))) as [i|].
  - by intros [= _ _ _ <-].
  - case_bool_decide.
    + destruct (list.last (take MaxReqSize (rd c))) as [b|];
        [destruct (Byte.eqb b CR)|]; by intros [= _ _ _ <-].
    + destruct (rd c); by intros [= _ _ _ <-].
Qed.

(** A full buffer comes with a [nil] error. *)
Lemma ReadLine_prefix c data e c' : ReadLine c = (data, true, e, c') → e = None.
Proof.
  unfold ReadLine.
  destruct (index_LF (take MaxReqSize (rd c))) as [i|]; [done|].
  case_bool_decide.
  - destruct (list.last (take MaxReqSize (rd c))) as [b|];
      [destruct (Byte.eqb b CR)|]; by intros [= _ <- _].
  - by destruct (rd c).
Qed.

Lemma ReadLine_flood c :
  MaxReqSize ≤ length (rd c) →
  index_LF (take MaxReqSize (rd c)) = None →
  ∃ data c', ReadLine c = (data, true, None, c').
Proof.
  intros Hlen Hlf. unfold ReadLine. rewrite Hlf.
  rewrite bool_decide_eq_true_2 by done.
  destruct (list.last (take MaxReqSize (rd c))) as [b|];
    [destruct (Byte.eqb b CR)|]; eauto.
Qed.

Lemma ReadLine_end c : rd c = [] → ReadLine c = ([], false, Some (rd_end c), c).
Proof.
  intros Hrd. unfold ReadLine. by rewrite Hrd.
Qed.

Lemma index_LF_app line rest :
  index_LF line = None → index_LF (line ++ LF :: rest) = Some (length line).
Proof.
  induction line as [|b line IH]; simpl; [done|].
  destruct (Byte.eqb b LF); [done|].
  destruct (index_LF line); [done|]. intros _. by rewrite IH.
Qed.

(** A line whose terminator is among the first [MaxReqSize] bytes is read
    whole. *)
Lemma ReadLine_line c line rest :
  rd c = line ++ LF :: rest →
  index_LF line = None →
  length line < MaxReqSize →
  ReadLine c = (drop_CR line, false, None, with_rd c rest).
Proof.
  intros Hrd Hlf Hlen. unfold ReadLine. rewrite Hrd.
  rewrite take_app, (take_ge line) by lia.
  destruct (MaxReqSize - length line) as [|k] eqn:Hk; [lia|].
  rewrite firstn_cons, (index_LF_app _ _ Hlf).
  rewrite take_app_length, drop_app_ge by lia.
  by replace (S (length line) - length line) with 1 by lia.
Qed.

(** A line of [MaxReqSize] bytes before its terminator is not: the reader
    reports a full buffer. *)
Lemma ReadLine_full c line rest :
  rd c = line ++ rest →
  index_LF line = None →
  length line = MaxReqSize →
  ∃ data c', ReadLine c = (data, true, None, c').
Proof.
  intros Hrd Hlf Hlen. apply ReadLine_flood.
  - rewrite Hrd, length_app. lia.
  - rewrite Hrd, take_app, (take_ge line) by lia.
    replace (MaxReqSize - length line) with 0 by lia.
    by rewrite take_0, app_nil_r.
Qed.

(** A complete line costs the reader at least one byte. *)
Lemma ReadLine_consumes c data c' :
  ReadLine c = (data, false, None, c') → length (rd c') < length (rd c).
Proof.
  unfold ReadLine.
  destruct (index_LF (take MaxReqSize (rd c))) as [i|] eqn:Hlf.
  - intros [= _ <-]. simpl. apply index_LF_lt in Hlf.
    rewrite length_take in Hlf. rewrite length_drop. lia.
  - case_bool_decide.
    + destruct (list.last (take MaxReqSize (rd c))) as [b|];
        [destruct (Byte.eqb b CR)|]; done.
    + destruct (rd c) as [|b l]; [done|].
      intros [= _ <-]. simpl. lia.
Qed.

(** *** One pass of the read loop *)

Lemma setDeadline_run cs st w :
  stratum (srv w) !! s_id cs = Some st →
  setDeadline cs w =
    Ret tt (upd_conn (tick w) cs (SetDeadline (conns w cs) (clock (ticks w) + timeout st))).
Proof.
  intros Hst. unfold setDeadline, bind, time_Now, get_srv. simpl.
  by rewrite (index_run _ _ _ _ Hst).
Qed.

Lemma on_srv_run f s' w : f (srv w) = Some s' → on_srv f w = Ret tt (with_srv w s').
Proof. intros Hf. unfold on_srv. by rewrite Hf. Qed.

Lemma iter_flood cs w data e c' :
  ReadLine (conns w cs) = (data, true, e, c') →
  handleTCPClient_iter cs w =
    Ret (Return None) (with_srv (upd_conn w cs c') (with_policy (srv w) (BanClient (ip cs)))).
Proof.
  intros Hr. pose proof (ReadLine_prefix _ _ _ _ Hr) as ->.
  unfold handleTCPClient_iter, bind, get_conn. by rewrite Hr.
Qed.

Lemma iter_EOF cs w data c' s' :
  ReadLine (conns w cs) = (data, false, Some io_EOF, c') →
  removeSession cs (srv w) = Some s' →
  handleTCPClient_iter cs w = Ret Break (with_srv (upd_conn w cs c') s').
Proof.
  intros Hr Hs. unfold handleTCPClient_iter, bind, get_conn. rewrite Hr. simpl.
  unfold on_srv. simpl. by rewrite Hs.
Qed.

Lemma iter_error cs w data e c' :
  ReadLine (conns w cs) = (data, false, Some e, c') →
  e ≠ io_EOF →
  handleTCPClient_iter cs w = Ret (Return (Some e)) (upd_conn w cs c').
Proof.
  intros Hr He. unfold handleTCPClient_iter, bind, get_conn. rewrite Hr. simpl.
  by destruct e.
Qed.

Lemma iter_short cs w data c' :
  ReadLine (conns w cs) = (data, false, None, c') →
  length data ≤ 1 →
  handleTCPClient_iter cs w = Ret Continue (upd_conn w cs c').
Proof.
  intros Hr Hlen. unfold handleTCPClient_iter, bind, get_conn. rewrite Hr. simpl.
  rewrite bool_decide_eq_false_2; [done|lia].
Qed.

Lemma iter_malformed cs w data c' e :
  ReadLine (conns w cs) = (data, false, None, c') →
  1 < length data →
  json_Unmarshal_StratumReq data = Malformed e →
  handleTCPClient_iter cs w =
    Ret (Return (Some e))
        (with_srv (upd_conn w cs c') (with_policy (srv w) (ApplyMalformedPolicy (ip cs)))).
Proof.
  intros Hr Hlen Hd. unfold handleTCPClient_iter, bind, get_conn. rewrite Hr. simpl.
  rewrite bool_decide_eq_true_2 by done. by rewrite Hd.
Qed.

Lemma iter_request cs w data c' req st :
  ReadLine (conns w cs) = (data, false, None, c') →
  1 < length data →
  json_Unmarshal_StratumReq data = Decoded req →
  stratum (srv w) !! s_id cs = Some st →
  handleTCPClient_iter cs w =
    (e <- handleTCPMessage cs req ;;
     match e with
     | Some e' => ret (Return (Some e'))
     | None => ret Continue
     end)
    (upd_conn (tick (upd_conn w cs c')) cs (SetDeadline c' (clock (ticks w) + timeout st))).
Proof.
  intros Hr Hlen Hd Hst. unfold handleTCPClient_iter. unfold bind at 1, get_conn.
  rewrite Hr. simpl. unfold bind at 1. simpl.
  rewrite bool_decide_eq_true_2 by done. rewrite Hd.
  unfold bind at 1. rewrite (setDeadline_run _ st) by done.
  by rewrite upd_conn_same.
Qed.

(** *** What a dispatch leaves alone *)

Lemma write_outcome_ReadLine c data p e c' :
  ReadLine c = (data, p, e, c') → write_outcome c' = write_outcome c.
Proof.
  intros Hr. destruct (ReadLine_frame _ _ _ _ _ Hr) as (_ & Hf & Hl & _ & Hc).
  unfold write_outcome. by rewrite Hf, Hl, Hc.
Qed.

Lemma write_outcome_SetDeadline c t : write_outcome (SetDeadline c t) = write_outcome c.
Proof. unfold write_outcome, SetDeadline. by destruct (closed c) eqn:Hc; simpl; rewrite ?Hc. Qed.

Lemma wlog_SetDeadline c t : wlog (SetDeadline c t) = wlog c.
Proof. unfold SetDeadline. by destruct (closed c). Qed.

Lemma rd_SetDeadline c t : rd (SetDeadline c t) = rd c.
Proof. unfold SetDeadline. by destruct (closed c). Qed.

Lemma dispatch_frame_refl cs w : dispatch_frame cs w w.
Proof. by repeat split. Qed.

Lemma dispatch_frame_send cs w s1 m :
  length (stratum s1) = length (stratum (srv w)) →
  dispatch_frame cs w
    (upd_conn (with_srv w s1) cs (Encode (conns (with_srv w s1) cs) m).1).
Proof.
  intros Hlen. split; [done|]. split; [done|]. split.
  - intros cs' Hne. by rewrite upd_conn_other.
  - by rewrite upd_conn_same.
Qed.

Lemma sendTCPError_sends cs id reply w e w' :
  sendTCPError cs id reply w = Ret e w' →
  ∃ m, w' = upd_conn w cs (Encode (conns w cs) m).1.
Proof.
  unfold sendTCPError, bind. rewrite conn_Encode_run.
  destruct (write_outcome (conns w cs)); [|destruct reply]; intros Hr;
    try done; injection Hr as _ <-; eauto.
Qed.

Lemma reply_sends cs id (r : JSONValue * option ErrorReply) w e w' :
  match r.2 with
  | Some errReply => sendTCPError cs id (Some errReply)
  | None => sendTCPResult cs id r.1
  end w = Ret e w' →
  ∃ m, w' = upd_conn w cs (Encode (conns w cs) m).1.
Proof. rewrite reply_run. intros [= _ <-]. eauto. Qed.

Lemma handleTCPMessage_frame cs req w e w' :
  handleTCPMessage cs req w = Ret e w' → dispatch_frame cs w w'.
Proof.
  unfold handleTCPMessage. unfold bind at 1, index.
  destruct (config_Stratum !! s_id cs) as [cfg|]; [|done]. simpl.
  destruct (is_login (Method req)).
  { destruct (json_Unmarshal_strings (Params req)) as [params|err].
    - unfold bind, lift_srv. intros Hr. apply reply_sends in Hr as [m ->].
      apply dispatch_frame_send, handleLoginRPC_endpoints.
    - intros [= _ <-]. apply dispatch_frame_refl. }
  destruct (Method req =? "eth_getWork")%string.
  { unfold bind, lift_srv. intros Hr. apply reply_sends in Hr as [m ->].
    apply dispatch_frame_send, handleGetWorkRPC_endpoints. }
  destruct (Method req =? "eth_submitWork")%string.
  { destruct (json_Unmarshal_strings (Params req)) as [params|err].
    - unfold bind, lift_srv. intros Hr. apply reply_sends in Hr as [m ->].
      apply dispatch_frame_send, handleTCPSubmitRPC_endpoints.
    - intros [= _ <-]. apply dispatch_frame_refl. }
  destruct (Method req =? "eth_submitHashrate")%string.
  { rewrite sendTCPResult_run. intros [= _ <-].
    by apply (dispatch_frame_send cs w (srv w) (result_envelope (Id req) (JBool true))). }
  unfold bind, lift_srv. intros Hr. apply sendTCPError_sends in Hr as [m ->].
  apply dispatch_frame_send, handleUnknownRPC_endpoints.
Qed.

(** *** The read loop never runs out of fuel *)

Lemma sendTCPError_fuel cs id reply w : sendTCPError cs id reply w ≠ OutOfFuel.
Proof.
  unfold sendTCPError, bind. rewrite conn_Encode_run.
  by destruct (write_outcome (conns w cs)); [|destruct reply].
Qed.

Lemma reply_fuel cs id (r : JSONValue * option ErrorReply) w :
  match r.2 with
  | Some errReply => sendTCPError cs id (Some errReply)
  | None => sendTCPResult cs id r.1
  end w ≠ OutOfFuel.
Proof. by rewrite reply_run. Qed.

Lemma handleTCPMessage_fuel cs req w : handleTCPMessage cs req w ≠ OutOfFuel.
Proof.
  unfold handleTCPMessage. unfold bind at 1, index.
  destruct (config_Stratum !! s_id cs) as [cfg|]; [|done]. simpl.
  destruct (is_login (Method req)).
  { destruct (json_Unmarshal_strings (Params req)) as [params|err]; [|done].
    unfold bind, lift_srv. apply reply_fuel. }
  destruct (Method req =? "eth_getWork")%string.
  { unfold bind, lift_srv. apply reply_fuel. }
  destruct (Method req =? "eth_submitWork")%string.
  { destruct (json_Unmarshal_strings (Params req)) as [params|err]; [|done].
    unfold bind, lift_srv. apply reply_fuel. }
  destruct (Method req =? "eth_submitHashrate")%string.
  { by rewrite sendTCPResult_run. }
  unfold bind, lift_srv. apply sendTCPError_fuel.
Qed.

Lemma iter_Continue_consumes cs w w' :
  handleTCPClient_iter cs w = Ret Continue w' →
  length (rd (conns w' cs)) < length (rd (conns w cs)).
Proof.
  destruct (ReadLine (conns w cs)) as [[[data p] e] c'] eqn:Hr.
  destruct p.
  { by rewrite (iter_flood _ _ _ _ _ Hr). }
  destruct e as [e|].
  { unfold handleTCPClient_iter, bind, get_conn. rewrite Hr. simpl.
    destruct e; try done.
    unfold on_srv. simpl. by destruct (removeSession cs (srv w)). }
  pose proof (ReadLine_consumes _ _ _ Hr) as Hlt.
  destruct (decide (1 < length data)) as [Hlen|Hlen].
  - destruct (json_Unmarshal_StratumReq data) as [req|err] eqn:Hd.
    + destruct (stratum (srv w) !! s_id cs) as [st|] eqn:Hst.
      * rewrite (iter_request _ _ _ _ _ _ Hr Hlen Hd Hst). unfold bind.
        destruct (handleTCPMessage cs req _) as [e w''| |] eqn:Hm; [|done..].
        destruct e; [done|]. intros [= <-].
        apply handleTCPMessage_frame in Hm as (_ & _ & _ & Hrd & _).
        rewrite Hrd, upd_conn_same, rd_SetDeadline. done.
      * unfold handleTCPClient_iter, bind, get_conn. rewrite Hr. simpl.
        rewrite bool_decide_eq_true_2 by done. rewrite Hd.
        unfold setDeadline, bind, time_Now, get_srv, index. simpl. by rewrite Hst.
    + by rewrite (iter_malformed _ _ _ _ _ Hr Hlen Hd).
  - rewrite (iter_short _ _ _ _ Hr) by lia. intros [= <-].
    by rewrite upd_conn_same.
Qed.

Lemma handleTCPClient_loop_fuel cs fuel w :
  length (rd (conns w cs)) < fuel → handleTCPClient_loop fuel cs w ≠ OutOfFuel.
Proof.
  revert w. induction fuel as [|fuel IH]; intros w Hlt; [lia|].
  simpl. unfold bind.
  destruct (handleTCPClient_iter cs w) as [step w'| |] eqn:Hi; [|done|].
  - destruct step; [|done..].
    apply IH. apply iter_Continue_consumes in Hi. lia.
  - exfalso. revert Hi. unfold handleTCPClient_iter, bind, get_conn, set_conn.
    destruct (ReadLine (conns w cs)) as [[[data p] e] c']. simpl.
    destruct p; [done|]. destruct e as [e|].
    + destruct e; try done. unfold on_srv. simpl.
      by destruct (removeSession cs (srv w)).
    + case_bool_decide; [|done].
      destruct (json_Unmarshal_StratumReq data) as [req|err]; [|done].
      unfold setDeadline, bind, time_Now, get_srv, index, get_conn, set_conn. simpl.
      destruct (stratum (srv w) !! s_id cs); [|done]. simpl.
      destruct (handleTCPMessage cs req _) as [e w''| |] eqn:Hm; [by destruct e|done|].
      by apply handleTCPMessage_fuel in Hm.
Qed.

(** The fuel [handleTCPClient] gives its loop is enough: it returns or
    panics, as the Go function does. *)
Lemma handleTCPClient_fuel cs w : handleTCPClient cs w ≠ OutOfFuel.
Proof.
  unfold handleTCPClient. unfold bind at 1.
  destruct (setDeadline cs w) as [[] w1| |] eqn:Hs; [|done|].
  - unfold bind, index, get_conn.
    destruct (config_Stratum !! s_id cs); [|done].
    apply (handleTCPClient_loop_fuel cs (S (length (rd (conns w1 cs)))) w1). lia.
  - revert Hs. unfold setDeadline, bind, time_Now, get_srv, index. simpl.
    by destruct (stratum (srv w) !! s_id cs).
Qed.

(** *** How a session ends *)

Lemma loop_step cs fuel w :
  handleTCPClient_loop (S fuel) cs w =
    match handleTCPClient_iter cs w with
    | Ret Continue w' => handleTCPClient_loop fuel cs w'
    | Ret Break w' => Ret None w'
    | Ret (Return err) w' => Ret err w'
    | Panic => Panic
    | OutOfFuel => OutOfFuel
    end.
Proof.
  simpl. unfold bind.
  destruct (handleTCPClient_iter cs w) as [step w'| |]; [|done..].
  by destruct step.
Qed.

Lemma cleanup_error cs e w :
  s_id cs < length (stratum (srv w)) →
  ∃ s',
    removeSession cs (srv w) = Some s' ∧
    ListenTCP_cleanup cs (Some e) w =
      Ret tt (upd_conn (with_srv w s') cs (Close (conns w cs))).
Proof.
  intros Hlt. destruct (lookup_lt_is_Some_2 _ _ Hlt) as [st Hst].
  eexists. split; [by apply removeSession_Some|].
  unfold ListenTCP_cleanup, bind.
  by rewrite (on_srv_run _ _ _ (removeSession_Some _ _ _ Hst)).
Qed.

(** After a non-nil error the goroutine of [ListenTCP] removes the session
    and closes its transport; it writes nothing and calls no policy. *)
Lemma cleanup_closes cs e w :
  s_id cs < length (stratum (srv w)) →
  ∃ w',
    ListenTCP_cleanup cs (Some e) w = Ret tt w' ∧
    ¬ member (srv w') (s_id cs) cs ∧
    closed (conns w' cs) = true ∧
    policy (srv w') = policy (srv w) ∧
    wlog (conns w' cs) = wlog (conns w cs).
Proof.
  intros Hlt. destruct (cleanup_error cs e w Hlt) as (s' & Hr & Hc).
  eexists. split; [exact Hc|]. rewrite upd_conn_same. simpl.
  split; [by eapply removeSession_not_member|]. split; [done|].
  split; [|done].
  revert Hr. unfold removeSession.
  destruct (stratum (srv w) !! s_id cs); simpl; [|done]. by intros [= <-].
Qed.

(** C3. A line of [MaxReqSize] bytes or more without a line feed makes the
    handler ban the address of the client and return at once, having
    written nothing; but the error it returns is the [nil] error that
    [ReadLine] gives with a full buffer, so the goroutine of [ListenTCP]
    neither removes the session nor closes the connection. *)
Theorem flood_bans_and_returns_nil cs w fuel :
  MaxReqSize ≤ length (rd (conns w cs)) →
  index_LF (take MaxReqSize (rd (conns w cs))) = None →
  ∃ w1,
    handleTCPClient_loop (S fuel) cs w = Ret None w1 ∧
    policy (srv w1) = policy (srv w) ++ [BanClient (ip cs)] ∧
    stratum (srv w1) = stratum (srv w) ∧
    wlog (conns w1 cs) = wlog (conns w cs) ∧
    ListenTCP_cleanup cs None w1 = Ret tt w1 ∧
    closed (conns w1 cs) = closed (conns w cs).
Proof.
  intros Hlen Hlf.
  destruct (ReadLine_flood _ Hlen Hlf) as (data & c' & Hr).
  destruct (ReadLine_frame _ _ _ _ _ Hr) as (_ & _ & Hl & _ & Hc).
  eexists. split; [by rewrite loop_step, (iter_flood _ _ _ _ _ Hr)|].
  simpl. rewrite fn_lookup_insert. done.
Qed.

(** C7. On a clean end of stream the handler removes the session from the
    registry of its endpoint and returns [nil]; the goroutine of
    [ListenTCP], which closes the transport only after a non-nil error,
    then leaves the connection as it is. *)
Theorem eof_removes_and_returns_nil cs w fuel :
  s_id cs < length (stratum (srv w)) →
  rd (conns w cs) = [] →
  rd_end (conns w cs) = io_EOF →
  ∃ w1,
    handleTCPClient_loop (S fuel) cs w = Ret None w1 ∧
    removeSession cs (srv w) = Some (srv w1) ∧
    ¬ member (srv w1) (s_id cs) cs ∧
    ListenTCP_cleanup cs None w1 = Ret tt w1 ∧
    closed (conns w1 cs) = closed (conns w cs).
Proof.
  intros Hlt Hrd Hend.
  destruct (lookup_lt_is_Some_2 _ _ Hlt) as [st Hst].
  pose proof (removeSession_Some _ _ _ Hst) as Hrm.
  pose proof (ReadLine_end _ Hrd) as Hr. rewrite Hend in Hr.
  eexists. split; [by rewrite loop_step, (iter_EOF _ _ _ _ _ Hr Hrm)|].
  simpl. rewrite fn_lookup_insert.
  split; [done|]. split; [by eapply removeSession_not_member|]. done.
Qed.

(** C2, as the code has it.  A complete line that does not decode as a
    request ends the handler with the error of the decoder, after one
    call of [ApplyMalformedPolicy] and without a write; a request for
    [eth_submitLogin], [eth_login] or [eth_submitWork] whose parameters do
    not decode as a sequence of strings ends it with that error too,
    without a write, without calling the RPC handler, and without any
    call of the policy.  In both cases the goroutine of [ListenTCP] then
    removes the session and closes the transport. *)
Theorem decode_failure_closes cs w fuel data c' :
  endpoint_ok (srv w) (s_id cs) →
  ReadLine (conns w cs) = (data, false, None, c') →
  1 < length data →
  (∀ e, json_Unmarshal_StratumReq data = Malformed e →
     ∃ w1 w2,
       handleTCPClient_loop (S fuel) cs w = Ret (Some e) w1 ∧
       policy (srv w1) = policy (srv w) ++ [ApplyMalformedPolicy (ip cs)] ∧
       wlog (conns w1 cs) = wlog (conns w cs) ∧
       ListenTCP_cleanup cs (Some e) w1 = Ret tt w2 ∧
       ¬ member (srv w2) (s_id cs) cs ∧
       closed (conns w2 cs) = true ∧
       policy (srv w2) = policy (srv w1) ∧
       wlog (conns w2 cs) = wlog (conns w cs)) ∧
  (∀ req e, json_Unmarshal_StratumReq data = Decoded req →
     Method req = "eth_submitLogin" ∨ Method req = "eth_login" ∨
       Method req = "eth_submitWork" →
     json_Unmarshal_strings (Params req) = Malformed e →
     ∃ w1 w2,
       handleTCPClient_loop (S fuel) cs w = Ret (Some e) w1 ∧
       srv w1 = srv w ∧
       wlog (conns w1 cs) = wlog (conns w cs) ∧
       ListenTCP_cleanup cs (Some e) w1 = Ret tt w2 ∧
       ¬ member (srv w2) (s_id cs) cs ∧
       closed (conns w2 cs) = true ∧
       policy (srv w2) = policy (srv w) ∧
       wlog (conns w2 cs) = wlog (conns w cs)).
Proof.
  intros [Hs Hc] Hr Hlen.
  destruct (ReadLine_frame _ _ _ _ _ Hr) as (_ & _ & Hl & _ & _).
  split.
  - intros e Hd.
    set (w1 := with_srv (upd_conn w cs c') (with_policy (srv w) (ApplyMalformedPolicy (ip cs)))).
    destruct (cleanup_closes cs e w1) as (w2 & Hcl & Hnm & Hcd & Hp & Hw); [done|].
    exists w1, w2.
    split; [by rewrite loop_step, (iter_malformed _ _ _ _ _ Hr Hlen Hd)|].
    split; [done|].
    assert (wlog (conns w1 cs) = wlog (conns w cs)) as Hw1
      by (simpl; by rewrite fn_lookup_insert).
    split; [done|]. split; [done|]. split; [done|]. split; [done|].
    split; [done|]. by rewrite Hw.
  - intros req e Hd Hm Hp.
    destruct (lookup_lt_is_Some_2 _ _ Hs) as [st Hst].
    destruct (lookup_lt_is_Some_2 _ _ Hc) as [cfg Hcfg].
    set (w1 := upd_conn (tick (upd_conn w cs c')) cs
                 (SetDeadline c' (clock (ticks w) + timeout st))).
    assert (handleTCPMessage cs req w1 = Ret (Some e) w1) as Hmsg.
    { unfold handleTCPMessage. unfold bind at 1. rewrite (index_run _ _ _ _ Hcfg).
      destruct Hm as [Hm|[Hm|Hm]]; rewrite Hm; simpl; by rewrite Hp. }
    destruct (cleanup_closes cs e w1) as (w2 & Hcl & Hnm & Hcd & Hpol & Hw); [done|].
    exists w1, w2.
    split.
    { rewrite loop_step, (iter_request _ _ _ _ _ _ Hr Hlen Hd Hst).
      unfold bind. fold w1. by rewrite Hmsg. }
    split; [done|].
    assert (wlog (conns w1 cs) = wlog (conns w cs)) as Hw1.
    { unfold w1. by rewrite upd_conn_same, wlog_SetDeadline. }
    split; [done|]. split; [done|]. split; [done|]. split; [done|].
    split; [done|]. by rewrite Hw.
Qed.

(** C1, as the code has it.  A request whose method is none of the five
    the dispatch names is answered with the error envelope of the
    unknown-method handler, and that ends the session: [sendTCPError]
    returns a non-nil error, which the handler returns without reading on,
    and the goroutine of [ListenTCP] removes the session and closes the
    transport. *)
Theorem unknown_method_is_fatal cs w fuel data c' req s1 reply :
  endpoint_ok (srv w) (s_id cs) →
  ReadLine (conns w cs) = (data, false, None, c') →
  1 < length data →
  json_Unmarshal_StratumReq data = Decoded req →
  unknown_method (Method req) →
  handleUnknownRPC cs (Method req) (srv w) = (s1, Some reply) →
  ∃ w1 w2,
    handleTCPClient_loop (S fuel) cs w =
      Ret (Some (match write_outcome (conns w cs) with
                 | Some e => e
                 | None => errors_New (Message reply)
                 end)) w1 ∧
    wlog (conns w1 cs) =
      wlog (conns w cs) ++ [(error_envelope (Id req) reply, write_outcome (conns w cs))] ∧
    rd (conns w1 cs) = rd c' ∧
    ListenTCP_cleanup cs
      (Some (match write_outcome (conns w cs) with
             | Some e => e
             | None => errors_New (Message reply)
             end)) w1 = Ret tt w2 ∧
    ¬ member (srv w2) (s_id cs) cs ∧
    closed (conns w2 cs) = true.
Proof.
  intros [Hs Hc] Hr Hlen Hd Hm Hu.
  destruct (lookup_lt_is_Some_2 _ _ Hs) as [st Hst].
  destruct (lookup_lt_is_Some_2 _ _ Hc) as [cfg Hcfg].
  destruct (unknown_method_eqb _ Hm) as (Hm1 & Hm2 & Hm3 & Hm4).
  destruct (ReadLine_frame _ _ _ _ _ Hr) as (_ & _ & Hl & _ & _).
  pose proof (write_outcome_ReadLine _ _ _ _ _ Hr) as Hwo.
  set (w0 := upd_conn (tick (upd_conn w cs c')) cs
               (SetDeadline c' (clock (ticks w) + timeout st))).
  set (w1 := upd_conn (with_srv w0 s1) cs
               (Encode (conns (with_srv w0 s1) cs) (error_envelope (Id req) reply)).1).
  set (e := match write_outcome (conns w cs) with
            | Some e => e
            | None => errors_New (Message reply)
            end).
  assert (write_outcome (conns (with_srv w0 s1) cs) = write_outcome (conns w cs)) as Hwo1.
  { simpl. by rewrite fn_lookup_insert, write_outcome_SetDeadline. }
  assert (handleTCPMessage cs req w0 = Ret (Some e) w1) as Hmsg.
  { unfold handleTCPMessage. unfold bind at 1. rewrite (index_run _ _ _ _ Hcfg).
    rewrite Hm1, Hm2, Hm3, Hm4. unfold bind, lift_srv.
    change (srv w0) with (srv w). rewrite Hu. simpl fst. simpl snd.
    rewrite sendTCPError_run. by rewrite Hwo1. }
  assert (s_id cs < length (stratum (srv w1))) as Hs1.
  { change (srv w1) with s1.
    pose proof (handleUnknownRPC_endpoints cs (Method req) (srv w)) as Hlen'.
    rewrite Hu in Hlen'. simpl in Hlen'. lia. }
  destruct (cleanup_closes cs e w1 Hs1) as (w2 & Hcl & Hnm & Hcd & _ & _).
  exists w1, w2.
  split.
  { rewrite loop_step, (iter_request _ _ _ _ _ _ Hr Hlen Hd Hst).
    unfold bind. fold w0. by rewrite Hmsg. }
  split.
  { unfold w1. rewrite upd_conn_same, Encode_wlog, Hwo1.
    simpl. by rewrite fn_lookup_insert, wlog_SetDeadline, Hl. }
  split.
  { unfold w1. rewrite upd_conn_same. simpl.
    by rewrite fn_lookup_insert, rd_SetDeadline. }
  done.
Qed.

(** *** Where the deadline is renewed *)

Lemma deadline_SetDeadline c t : closed c = false → deadline (SetDeadline c t) = Some t.
Proof. intros Hc. unfold SetDeadline. by rewrite Hc. Qed.

Lemma deadline_upd_conn w cs c cs' :
  deadline c = deadline (conns w cs) →
  deadline (conns (upd_conn w cs c) cs') = deadline (conns w cs').
Proof.
  intros Hd. destruct (decide (cs = cs')) as [<-|Hne].
  - by rewrite upd_conn_same.
  - by rewrite upd_conn_other.
Qed.

Lemma handleTCPMessage_deadlines cs req w e w' :
  handleTCPMessage cs req w = Ret e w' →
  ticks w' = ticks w ∧ ∀ cs', deadline (conns w' cs') = deadline (conns w cs').
Proof.
  intros Hm. apply handleTCPMessage_frame in Hm as (Ht & _ & Ho & _ & _ & _ & Hd & _).
  split; [done|]. intros cs'.
  destruct (decide (cs' = cs)) as [->|Hne]; [done|]. by rewrite Ho.
Qed.

Lemma handleTCPClient_start cs w st :
  stratum (srv w) !! s_id cs = Some st →
  s_id cs < length config_Stratum →
  handleTCPClient cs w =
    handleTCPClient_loop (S (length (rd (conns w cs)))) cs
      (upd_conn (tick w) cs (SetDeadline (conns w cs) (clock (ticks w) + timeout st))).
Proof.
  intros Hst Hc. destruct (lookup_lt_is_Some_2 _ _ Hc) as [cfg Hcfg].
  unfold handleTCPClient. unfold bind at 1. rewrite (setDeadline_run _ _ _ Hst).
  unfold bind at 1. rewrite (index_run _ _ _ _ Hcfg).
  unfold bind at 1, get_conn.
  by rewrite upd_conn_same, rd_SetDeadline.
Qed.

Lemma broadcast_go_pushed reply cs w st :
  stratum (srv w) !! s_id cs = Some st →
  write_outcome (conns w cs) = None →
  broadcast_go reply cs w =
    Ret tt (upd_conn
              (tick (upd_conn w cs
                 (Encode (conns w cs)
                    (PushMessage {| push_Version := "2.0"; push_Result := reply;
                                    push_Id := 0 |})).1))
              cs
              (SetDeadline
                 (Encode (conns w cs)
                    (PushMessage {| push_Version := "2.0"; push_Result := reply;
                                    push_Id := 0 |})).1
                 (clock (ticks w) + timeout st))).
Proof.
  intros Hst Hw. unfold broadcast_go, pushNewJob, bind.
  rewrite conn_Encode_run, Hw, (setDeadline_run _ st) by done.
  by rewrite upd_conn_same.
Qed.

Lemma broadcast_go_failed reply cs w st err :
  stratum (srv w) !! s_id cs = Some st →
  write_outcome (conns w cs) = Some err →
  broadcast_go reply cs w =
    Ret tt (with_srv
              (upd_conn w cs
                 (Encode (conns w cs)
                    (PushMessage {| push_Version := "2.0"; push_Result := reply;
                                    push_Id := 0 |})).1)
              (with_stratum (srv w)
                 (<[s_id cs := with_sessions st (sessions st ∖ {[cs]})]> (stratum (srv w))))).
Proof.
  intros Hst Hw. unfold broadcast_go, pushNewJob, bind.
  rewrite conn_Encode_run, Hw.
  unfold on_srv. simpl. by rewrite (removeSession_Some _ _ _ Hst).
Qed.

(** C9. The deadline of a session is set, to the reading of the clock plus
    the timeout of its endpoint, (a) when [handleTCPClient] starts, before
    the first read, (b) in a pass of the loop that decoded a request,
    before the request is dispatched, and (c) after a push of the
    broadcaster that succeeded.  Nothing else reads the clock or changes a
    deadline: not a pass of the loop that met a full buffer, an error, a
    line of at most one byte or a line that does not decode as a request;
    not the dispatch itself; not a push that failed; not the cleanup of
    [ListenTCP]. *)
Theorem deadline_renewal_points cs w st :
  stratum (srv w) !! s_id cs = Some st →
  s_id cs < length config_Stratum →
  closed (conns w cs) = false →
  (∃ w1,
     handleTCPClient cs w = handleTCPClient_loop (S (length (rd (conns w cs)))) cs w1 ∧
     deadline (conns w1 cs) = Some (clock (ticks w) + timeout st)%Z ∧
     ticks w1 = S (ticks w) ∧ rd (conns w1 cs) = rd (conns w cs)) ∧
  (∀ data c' req,
     ReadLine (conns w cs) = (data, false, None, c') →
     1 < length data →
     json_Unmarshal_StratumReq data = Decoded req →
     ∃ w1,
       handleTCPClient_iter cs w =
         (e <- handleTCPMessage cs req ;;
          match e with
          | Some e' => ret (Return (Some e'))
          | None => ret Continue
          end) w1 ∧
       deadline (conns w1 cs) = Some (clock (ticks w) + timeout st)%Z ∧
       ticks w1 = S (ticks w)) ∧
  (∀ reply,
     write_outcome (conns w cs) = None →
     ∃ w1,
       broadcast_go reply cs w = Ret tt w1 ∧
       deadline (conns w1 cs) = Some (clock (ticks w) + timeout st)%Z ∧
       ticks w1 = S (ticks w)) ∧
  (∀ data p e c',
     ReadLine (conns w cs) = (data, p, e, c') →
     p = true ∨ is_Some e ∨ length data ≤ 1 ∨
       (∃ err, json_Unmarshal_StratumReq data = Malformed err) →
     ∃ step w1,
       handleTCPClient_iter cs w = Ret step w1 ∧
       ticks w1 = ticks w ∧
       ∀ cs', deadline (conns w1 cs') = deadline (conns w cs')) ∧
  (∀ req e w1,
     handleTCPMessage cs req w = Ret e w1 →
     ticks w1 = ticks w ∧ ∀ cs', deadline (conns w1 cs') = deadline (conns w cs')) ∧
  (∀ reply err,
     write_outcome (conns w cs) = Some err →
     ∃ w1,
       broadcast_go reply cs w = Ret tt w1 ∧
       ticks w1 = ticks w ∧
       ∀ cs', deadline (conns w1 cs') = deadline (conns w cs')) ∧
  (∀ e, ∃ w1,
     ListenTCP_cleanup cs e w = Ret tt w1 ∧
     ticks w1 = ticks w ∧
     ∀ cs', deadline (conns w1 cs') = deadline (conns w cs')).
Proof.
  intros Hst Hc Hopen.
  split.
  { eexists. split; [by apply handleTCPClient_start|].
    rewrite upd_conn_same, rd_SetDeadline.
    by rewrite deadline_SetDeadline. }
  split.
  { intros data c' req Hr Hlen Hd.
    destruct (ReadLine_frame _ _ _ _ _ Hr) as (_ & _ & _ & _ & Hcl).
    eexists. split; [by apply (iter_request _ _ _ _ _ st Hr)|].
    rewrite upd_conn_same. split; [|done].
    apply deadline_SetDeadline. congruence. }
  split.
  { intros reply Hw. eexists. split; [by apply broadcast_go_pushed|].
    rewrite upd_conn_same. split; [|done].
    by apply deadline_SetDeadline. }
  split.
  { intros data p e c' Hr Hcase.
    destruct (ReadLine_frame _ _ _ _ _ Hr) as (_ & _ & _ & Hdl & _).
    destruct p.
    { do 2 eexists. split; [by eapply iter_flood|]. split; [done|].
      intros cs'. by apply (deadline_upd_conn w cs c'). }
    destruct e as [e|].
    { destruct (decide (e = io_EOF)) as [->|Hne].
      - do 2 eexists.
        split; [by apply (iter_EOF _ _ _ _ _ Hr (removeSession_Some _ _ _ Hst))|].
        split; [done|]. intros cs'. by apply (deadline_upd_conn w cs c').
      - do 2 eexists. split; [by eapply iter_error|]. split; [done|].
        intros cs'. by apply (deadline_upd_conn w cs c'). }
    destruct (decide (1 < length data)) as [Hlen|Hlen].
    - destruct (json_Unmarshal_StratumReq data) as [req|err] eqn:Hd.
      + destruct Hcase as [?|[[? ?]|[?|[? ?]]]]; try done; lia.
      + do 2 eexists. split; [by eapply iter_malformed|]. split; [done|].
        intros cs'. by apply (deadline_upd_conn w cs c').
    - do 2 eexists. split; [eapply iter_short; [done|lia]|]. split; [done|].
      intros cs'. by apply (deadline_upd_conn w cs c'). }
  split.
  { intros req e w1. apply handleTCPMessage_deadlines. }
  split.
  { intros reply err Hw. eexists. split; [by eapply broadcast_go_failed|].
    split; [done|]. intros cs'.
    by apply (deadline_upd_conn w cs (Encode (conns w cs) _).1). }
  intros [e|].
  - destruct (cleanup_error cs e w) as (s' & _ & Hcl); [by eapply lookup_lt_Some|].
    eexists. split; [exact Hcl|]. split; [done|].
    intros cs'. by apply (deadline_upd_conn (with_srv w s') cs (Close (conns w cs))).
  - by exists w.
Qed.

(** *** The handler returns *)

Lemma handleTCPMessage_returns cs req w :
  s_id cs < length config_Stratum →
  (∀ m s, (handleUnknownRPC cs m s).2 ≠ None) →
  ∃ e w', handleTCPMessage cs req w = Ret e w'.
Proof.
  intros Hc Hu. destruct (lookup_lt_is_Some_2 _ _ Hc) as [cfg Hcfg].
  unfold handleTCPMessage. unfold bind at 1. rewrite (index_run _ _ _ _ Hcfg).
  destruct (is_login (Method req)).
  { destruct (json_Unmarshal_strings (Params req)) as [params|err]; [|by eauto].
    unfold bind, lift_srv. rewrite reply_run. eauto. }
  destruct (Method req =? "eth_getWork")%string.
  { unfold bind, lift_srv. rewrite reply_run. eauto. }
  destruct (Method req =? "eth_submitWork")%string.
  { destruct (json_Unmarshal_strings (Params req)) as [params|err]; [|by eauto].
    unfold bind, lift_srv. rewrite reply_run. eauto. }
  destruct (Method req =? "eth_submitHashrate")%string.
  { rewrite sendTCPResult_run. eauto. }
  unfold bind, lift_srv.
  specialize (Hu (Method req) (srv w)).
  destruct (handleUnknownRPC cs (Method req) (srv w)) as [s1 [reply|]]; [|done].
  simpl. rewrite sendTCPError_run. eauto.
Qed.

Lemma iter_returns cs w :
  endpoint_ok (srv w) (s_id cs) →
  (∀ m s, (handleUnknownRPC cs m s).2 ≠ None) →
  ∃ step w',
    handleTCPClient_iter cs w = Ret step w' ∧
    (step = Continue → endpoint_ok (srv w') (s_id cs)).
Proof.
  intros [Hs Hc] Hu.
  destruct (lookup_lt_is_Some_2 _ _ Hs) as [st Hst].
  destruct (ReadLine (conns w cs)) as [[[data p] e] c'] eqn:Hr.
  destruct p.
  { rewrite (iter_flood _ _ _ _ _ Hr). do 2 eexists; split; [reflexivity|done]. }
  destruct e as [e|].
  { destruct (decide (e = io_EOF)) as [->|Hne].
    - rewrite (iter_EOF _ _ _ _ _ Hr (removeSession_Some _ _ _ Hst)). do 2 eexists; split; [reflexivity|done].
    - rewrite (iter_error _ _ _ _ _ Hr Hne). do 2 eexists; split; [reflexivity|done]. }
  destruct (decide (1 < length data)) as [Hlen|Hlen].
  - destruct (json_Unmarshal_StratumReq data) as [req|err] eqn:Hd.
    + rewrite (iter_request _ _ _ _ _ _ Hr Hlen Hd Hst). unfold bind.
      destruct (handleTCPMessage_returns cs req
                  (upd_conn (tick (upd_conn w cs c')) cs
                     (SetDeadline c' (clock (ticks w) + timeout st))) Hc Hu)
        as (e & w' & Hm).
      rewrite Hm. apply handleTCPMessage_frame in Hm as (_ & Hl & _).
      destruct e; [do 2 eexists; split; [reflexivity|done]|].
      do 2 eexists. split; [done|]. intros _. split; [|done].
      simpl in Hl. lia.
    + rewrite (iter_malformed _ _ _ _ _ Hr Hlen Hd). do 2 eexists; split; [reflexivity|done].
  - rewrite (iter_short _ _ _ _ Hr) by lia.
    do 2 eexists. split; [done|]. intros _. by split.
Qed.

Lemma handleTCPClient_loop_returns cs fuel w :
  length (rd (conns w cs)) < fuel →
  endpoint_ok (srv w) (s_id cs) →
  (∀ m s, (handleUnknownRPC cs m s).2 ≠ None) →
  ∃ e w', handleTCPClient_loop fuel cs w = Ret e w'.
Proof.
  revert w. induction fuel as [|fuel IH]; intros w Hlt Hok Hu; [lia|].
  rewrite loop_step.
  destruct (iter_returns cs w Hok Hu) as (step & w' & Hi & Hok').
  rewrite Hi. destruct step; [|by eauto..].
  apply IH; [|by apply Hok'|done].
  apply iter_Continue_consumes in Hi. lia.
Qed.

(** On a session of a configured endpoint, and with an unknown-method
    handler that always builds a reply, [handleTCPClient] returns: it
    neither panics nor reads for ever. *)
Lemma handleTCPClient_returns cs w :
  endpoint_ok (srv w) (s_id cs) →
  (∀ m s, (handleUnknownRPC cs m s).2 ≠ None) →
  ∃ e w', handleTCPClient cs w = Ret e w'.
Proof.
  intros [Hs Hc] Hu. destruct (lookup_lt_is_Some_2 _ _ Hs) as [st Hst].
  rewrite (handleTCPClient_start _ _ _ Hst Hc).
  apply handleTCPClient_loop_returns; [|by split|done].
  rewrite upd_conn_same, rd_SetDeadline. lia.
Qed.

(** *** The broadcast *)

Lemma member_with_sessions s i st X j cs :
  stratum s !! i = Some st →
  member (with_stratum s (<[i := with_sessions st X]> (stratum s))) j cs ↔
  if decide (j = i) then cs ∈ X else member s j cs.
Proof.
  intros Hst. unfold member. simpl. case_decide as Hj.
  - subst j. rewrite list_lookup_insert_eq by (by eapply lookup_lt_Some).
    split; [by intros (? & [= <-] & ?)|]. intros Hin. by eexists.
  - by rewrite list_lookup_insert_ne.
Qed.

Lemma timeout_with_sessions s i st X j :
  stratum s !! i = Some st →
  timeout <$> (<[i := with_sessions st X]> (stratum s) !! j) = timeout <$> (stratum s !! j).
Proof.
  intros Hst. destruct (decide (j = i)) as [->|Hne].
  - rewrite list_lookup_insert_eq by (by eapply lookup_lt_Some). by rewrite Hst.
  - by rewrite list_lookup_insert_ne.
Qed.

Lemma broadcast_go_step reply cs w st :
  stratum (srv w) !! s_id cs = Some st →
  ∃ w1,
    broadcast_go reply cs w = Ret tt w1 ∧
    (∀ cs', cs' ≠ cs → conns w1 cs' = conns w cs') ∧
    (∀ j cs', cs' ≠ cs → member (srv w1) j cs' ↔ member (srv w) j cs') ∧
    (∀ j, timeout <$> (stratum (srv w1) !! j) = timeout <$> (stratum (srv w) !! j)) ∧
    ticks w ≤ ticks w1 ∧
    match write_outcome (conns w cs) with
    | Some _ =>
        ¬ member (srv w1) (s_id cs) cs ∧
        deadline (conns w1 cs) = deadline (conns w cs)
    | None =>
        (member (srv w1) (s_id cs) cs ↔ member (srv w) (s_id cs) cs) ∧
        deadline (conns w1 cs) = Some (clock (ticks w) + timeout st)%Z
    end.
Proof.
  intros Hst. destruct (write_outcome (conns w cs)) as [err|] eqn:Hw.
  - eexists. split; [by eapply broadcast_go_failed|].
    split; [intros cs' Hne; simpl; by rewrite fn_lookup_insert_ne|].
    split.
    { intros j cs' Hne. simpl. rewrite (member_with_sessions _ _ _ _ _ _ Hst).
      case_decide as Hj; [|done]. subst j. unfold member. rewrite Hst.
      split; [intros Hin; exists st; set_solver|].
      intros (? & [= <-] & ?). set_solver. }
    split; [intros j; by apply timeout_with_sessions|].
    split; [done|].
    split.
    + simpl. rewrite (member_with_sessions _ _ _ _ _ _ Hst).
      rewrite decide_True by done. set_solver.
    + simpl. by rewrite fn_lookup_insert.
  - eexists. split; [by eapply broadcast_go_pushed|].
    split; [intros cs' Hne; simpl; by rewrite !fn_lookup_insert_ne|].
    split; [done|]. split; [done|]. split; [simpl; lia|].
    split; [done|].
    rewrite upd_conn_same. apply deadline_SetDeadline.
    revert Hw. unfold write_outcome. simpl. by destruct (closed (conns w cs)).
Qed.

Lemma for_each_broadcast reply i l :
  NoDup l →
  (∀ cs, cs ∈ l → s_id cs = i) →
  ∀ w st, stratum (srv w) !! i = Some st →
  ∃ w',
    for_each (broadcast_go reply) l w = Ret tt w' ∧
    ticks w ≤ ticks w' ∧
    (∀ j, timeout <$> (stratum (srv w') !! j) = timeout <$> (stratum (srv w) !! j)) ∧
    (∀ cs, cs ∉ l →
       conns w' cs = conns w cs ∧ ∀ j, member (srv w') j cs ↔ member (srv w) j cs) ∧
    (∀ cs, cs ∈ l →
       match write_outcome (conns w cs) with
       | Some _ =>
           ¬ member (srv w') i cs ∧
           deadline (conns w' cs) = deadline (conns w cs)
       | None =>
           (member (srv w') i cs ↔ member (srv w) i cs) ∧
           ∃ n, ticks w ≤ n ∧ deadline (conns w' cs) = Some (clock n + timeout st)%Z
       end).
Proof.
  induction l as [|cs l IH]; intros Hnd Hid w st Hst.
  { exists w. split; [done|]. split; [done|]. split; [done|].
    split; [done|]. intros cs Hin. by apply elem_of_nil in Hin. }
  apply list.NoDup_cons in Hnd as [Hnin Hnd].
  assert (s_id cs = i) as Hi by (apply Hid; left).
  assert (stratum (srv w) !! s_id cs = Some st) as Hst0 by by rewrite Hi.
  destruct (broadcast_go_step reply cs w st Hst0)
    as (w1 & Hrun & Hconns & Hmem & Htime & Hticks & Hcs).
  assert (∃ st1, stratum (srv w1) !! i = Some st1 ∧ timeout st1 = timeout st)
    as (st1 & Hst1 & Hto).
  { specialize (Htime i). rewrite Hst in Htime.
    destruct (stratum (srv w1) !! i) as [st1|]; [|done].
    exists st1. split; [done|]. by injection Htime. }
  destruct (IH Hnd (λ cs' Hin, Hid cs' (list_elem_of_further _ _ _ Hin)) w1 st1 Hst1)
    as (w' & Hrun' & Hticks' & Htime' & Hout & Hin).
  exists w'. split.
  { simpl. unfold bind. by rewrite Hrun. }
  split; [lia|].
  split; [intros j; by rewrite Htime'|].
  split.
  { intros cs0 Hn0. apply not_elem_of_cons in Hn0 as [Hne Hn0].
    destruct (Hout cs0 Hn0) as [Hc Hm].
    split; [by rewrite Hc, Hconns|].
    intros j. by rewrite Hm, Hmem. }
  intros cs0 Hin0. apply elem_of_cons in Hin0 as [->|Hin0].
  - destruct (Hout cs Hnin) as [Hc Hm]. rewrite Hi in Hcs.
    destruct (write_outcome (conns w cs)).
    + rewrite Hc, Hm. done.
    + rewrite Hc, Hm. destruct Hcs as [Hcs1 Hcs2]. split; [done|].
      exists (ticks w). by split.
  - assert (cs0 ≠ cs) as Hne by (intros ->; done).
    specialize (Hin cs0 Hin0). rewrite (Hconns cs0 Hne) in Hin.
    destruct (write_outcome (conns w cs0)).
    + done.
    + destruct Hin as [Hm (n & Hn & Hd)].
      split; [by rewrite Hm, Hmem|].
      exists n. split; [lia|]. by rewrite Hd, Hto.
Qed.

(** The deadlines [setDeadline] sets are those the broadcast expects to
    find: an earlier reading of the clock plus the timeout. *)
Lemma setDeadline_timely cs w st w' d :
  stratum (srv w) !! s_id cs = Some st →
  setDeadline cs w = Ret tt w' →
  closed (conns w cs) = false →
  deadline (conns w' cs) = Some d →
  ∃ m, m < ticks w' ∧ d = (clock m + timeout st)%Z.
Proof.
  intros Hst Hrun Hopen Hd. rewrite (setDeadline_run _ _ _ Hst) in Hrun.
  injection Hrun as <-. rewrite upd_conn_same, deadline_SetDeadline in Hd by done.
  injection Hd as <-. exists (ticks w). split; [simpl; lia|done].
Qed.

(** C4. A broadcast that runs (a template with a header, a healthy server)
    pushes the job to every member of the registry of the endpoint.  A
    member whose push failed is no longer in the registry afterwards and
    keeps the deadline it had; a member whose push succeeded is still in
    the registry and has the deadline of a later reading of the clock plus
    the timeout, which is later than the deadline it had, when the clock
    advances between readings and the earlier deadline was set by
    [setDeadline] too.  The goroutines of the pushes are run one after the
    other, in the order in which [range] enumerates the registry, whatever
    that order is. *)
Theorem broadcast_invariant i w st t :
  endpoint_ok (srv w) i →
  stratum (srv w) !! i = Some st →
  registry_wf (srv w) →
  currentBlockTemplate (srv w) = Some t →
  String.length (Header t) ≠ 0 →
  isSick (srv w) = false →
  (∀ m n, m < n → (clock m < clock n)%Z) →
  (∀ cs d, cs ∈ sessions st → deadline (conns w cs) = Some d →
     ∃ m, m < ticks w ∧ d = (clock m + timeout st)%Z) →
  ∃ w',
    broadcastNewJobs i w = Ret tt w' ∧
    ∀ cs, cs ∈ sessions st →
      match write_outcome (conns w cs) with
      | Some _ =>
          ¬ member (srv w') (s_id cs) cs ∧
          deadline (conns w' cs) = deadline (conns w cs)
      | None =>
          member (srv w') (s_id cs) cs ∧
          ∃ d', deadline (conns w' cs) = Some d' ∧
                (∃ n, ticks w ≤ n ∧ d' = (clock n + timeout st)%Z) ∧
                ∀ d, deadline (conns w cs) = Some d → (d < d')%Z
      end.
Proof.
  intros [_ Hc] Hst Hwf Ht Hh Hsick Hclock Hdl.
  assert (∀ cs, cs ∈ sessions st → s_id cs = i) as Hid
    by (intros cs Hin; apply Hwf; by exists st).
  destruct (lookup_lt_is_Some_2 _ _ Hc) as [cfg Hcfg].
  set (w0 := tick (with_srv w {| stratum := stratum (srv w); policy := policy (srv w);
                                 ext := WriteStratumState config_Name (Name cfg) (Listen cfg)
                                          (size (sessions st)) (Difficulty cfg)
                                          (ext (srv w)) |})).
  assert (NoDup (range_order (sessions st))) as Hnd.
  { rewrite range_order_perm. apply NoDup_elements. }
  assert (∀ cs, cs ∈ range_order (sessions st) ↔ cs ∈ sessions st) as Hel.
  { intros cs. rewrite range_order_perm. apply elem_of_elements. }
  destruct (for_each_broadcast (JStrings [Header t; Seed t; diff st]) i
              (range_order (sessions st)) Hnd (λ cs Hin, Hid cs (proj1 (Hel cs) Hin))
              w0 st Hst)
    as (w' & Hrun & Hticks & _ & _ & Hin).
  exists (tick w'). split.
  { unfold broadcastNewJobs. unfold bind at 1. rewrite (index_run _ _ _ _ Hcfg).
    unfold bind at 1, get_srv. rewrite Ht.
    rewrite (proj2 (Nat.eqb_neq _ _) Hh), Hsick. simpl.
    unfold bind at 1. rewrite (index_run _ _ _ _ Hst).
    unfold bind at 1, lift_srv. simpl.
    unfold bind at 1, time_Now. simpl. fold w0.
    unfold bind at 1. rewrite Hrun. done. }
  intros cs Hcs. specialize (Hin cs (proj2 (Hel cs) Hcs)).
  rewrite (Hid cs Hcs).
  change (conns w0 cs) with (conns w cs) in Hin.
  destruct (write_outcome (conns w cs)) as [err|].
  - done.
  - destruct Hin as [Hm (n & Hn & Hd)].
    split.
    { apply Hm. exists st. by split. }
    exists (clock n + timeout st)%Z. split; [done|].
    simpl in Hn. split; [exists n; split; [lia|done]|].
    intros d Hold. destruct (Hdl cs d Hcs Hold) as (m & Hmlt & ->).
    specialize (Hclock m n). lia.
Qed.

End Facts.

(** ** Runs of the sample deployment *)

(** Removing one of two registered sessions. *)
Lemma removeSession_total_idempotent_witness :
  s_id sample_session < length (stratum (sample_srv {[ sample_session; other_session ]})) ∧
  ∃ s',
    removeSession sample_session (sample_srv {[ sample_session; other_session ]}) = Some s' ∧
    ¬ member s' 0 sample_session ∧
    member s' 0 other_session ∧
    removeSession sample_session s' = Some s'.
Proof.
  assert (s_id sample_session
          < length (stratum (sample_srv {[ sample_session; other_session ]}))) as Hlt
    by (simpl; lia).
  split; [exact Hlt|].
  destruct (removeSession_total_idempotent _ _ Hlt) as (s' & Hr & Hm & _ & Hi).
  exists s'. split; [exact Hr|].
  split; [intros Hin; apply Hm in Hin; naive_solver|].
  split; [|exact Hi].
  apply Hm. split.
  - eexists. split; [reflexivity|]. simpl. set_solver.
  - intros [_ [=]].
Defined.

(** The scenario of the specification: [eth_submitHashrate] with id 1. *)
Lemma submitHashrate_reply_witness :
  s_id sample_session < length config_Stratum ∧
  Method req_hashrate = "eth_submitHashrate" ∧
  ∃ w1,
    handleTCPMessage sample_session req_hashrate (sample_world [] io_EOF) = Ret None w1 ∧
    srv w1 = srv (sample_world [] io_EOF) ∧
    wlog (conns w1 sample_session) =
      [(RpcResp {| resp_Id := bytes "1"; resp_Version := "2.0";
                   resp_Result := JBool true; resp_Error := None |}, None)].
Proof.
  assert (s_id sample_session < length config_Stratum) as Hlt by (simpl; lia).
  split; [exact Hlt|]. split; [reflexivity|].
  destruct (submitHashrate_reply sample_session req_hashrate (sample_world [] io_EOF)
              Hlt eq_refl) as (w1 & _ & Hr & Hs & _ & _ & Hw & _).
  exists w1. split; [exact Hr|]. split; [exact Hs|exact Hw].
Defined.

(** A login with the id [3] that succeeds is answered with one result
    envelope, whose id is written [3]. *)
Lemma dispatch_one_response_witness :
  s_id sample_session < length config_Stratum ∧
  rpc_handler sample_session req_login (handleLoginRPC sample_session ["0xabc"] "") ∧
  ∃ err w' m,
    handleTCPMessage sample_session req_login (sample_world [] io_EOF) = Ret err w' ∧
    wlog (conns w' sample_session) = [(RpcResp m, None)] ∧
    resp_Id m = bytes "3" ∧
    written_Id m = bytes "3" ∧
    resp_Result m = JBool true ∧
    resp_Error m = None.
Proof.
  assert (s_id sample_session < length config_Stratum) as Hlt by (simpl; lia).
  assert (rpc_handler sample_session req_login (handleLoginRPC sample_session ["0xabc"] ""))
    as Hh by (apply (rpc_login sample_session req_login ["0xabc"]); [by right|reflexivity]).
  assert (plain_id (Id req_login)) as Hplain
    by (split; [discriminate|repeat constructor]).
  split; [exact Hlt|]. split; [exact Hh|].
  destruct (dispatch_one_response sample_session req_login _ (sample_world [] io_EOF) Hlt Hh)
    as (err & w' & m & Hr & _ & Hw & Hid & _ & Hwr & _ & Hres & _).
  exists err, w', m. split; [exact Hr|]. split; [exact Hw|]. split; [exact Hid|].
  split; [exact (Hwr Hplain)|].
  exact Hres.
Defined.

(** C6, as the specification states it, fails on the requests
    [{"id":[1, 2],"method":"eth_getWork","params":[]}] and
    [{"id":"<1>","method":"eth_getWork","params":[]}]: each is answered
    with one response, but the first id is written without its blank and
    the second with its angle brackets escaped. *)
Lemma verbatim_id_counterexample :
  rpc_handler sample_session req_spaced_id (handleGetWorkRPC sample_session) ∧
  rpc_handler sample_session req_html_id (handleGetWorkRPC sample_session) ∧
  Id req_spaced_id = bytes "[1, 2]" ∧
  outcome (handleTCPMessage sample_session req_spaced_id (sample_world [] io_EOF))
    (λ _ w, written_Ids (conns w sample_session)) = Some [bytes "[1,2]"] ∧
  bytes_eqb (bytes "[1,2]") (Id req_spaced_id) = false ∧
  Id req_html_id = quoted "<1>" ∧
  outcome (handleTCPMessage sample_session req_html_id (sample_world [] io_EOF))
    (λ _ w, written_Ids (conns w sample_session)) = Some [quoted "\u003c1\u003e"] ∧
  bytes_eqb (quoted "\u003c1\u003e") (Id req_html_id) = false.
Proof.
  split; [by apply rpc_getWork|].
  split; [by apply rpc_getWork|].
  repeat split; vm_compute; reflexivity.
Qed.

(** Two thousand bytes without a line feed. *)
Lemma flood_bans_and_returns_nil_witness :
  MaxReqSize ≤ length (rd (conns (sample_world (repeat x61 2000) io_EOF) sample_session)) ∧
  index_LF (take MaxReqSize
              (rd (conns (sample_world (repeat x61 2000) io_EOF) sample_session))) = None ∧
  ∃ w1,
    handleTCPClient_loop 1 sample_session (sample_world (repeat x61 2000) io_EOF)
      = Ret None w1 ∧
    policy (srv w1) = [BanClient "203.0.113.7"] ∧
    wlog (conns w1 sample_session) = [] ∧
    ListenTCP_cleanup sample_session None w1 = Ret tt w1 ∧
    closed (conns w1 sample_session) = false.
Proof.
  assert (MaxReqSize
          ≤ length (rd (conns (sample_world (repeat x61 2000) io_EOF) sample_session)))
    as Hlen by (apply Nat.leb_le; vm_compute; reflexivity).
  assert (index_LF (take MaxReqSize
            (rd (conns (sample_world (repeat x61 2000) io_EOF) sample_session))) = None)
    as Hlf by (vm_compute; reflexivity).
  split; [exact Hlen|]. split; [exact Hlf|].
  destruct (flood_bans_and_returns_nil sample_session _ 0 Hlen Hlf)
    as (w1 & Hr & Hp & _ & Hw & Hc & Hcl).
  exists w1. split; [exact Hr|]. split; [exact Hp|]. split; [exact Hw|].
  split; [exact Hc|exact Hcl].
Defined.

(** A peer that disconnects at once. *)
Lemma eof_removes_and_returns_nil_witness :
  s_id sample_session < length (stratum (srv (sample_world [] io_EOF))) ∧
  rd (conns (sample_world [] io_EOF) sample_session) = [] ∧
  rd_end (conns (sample_world [] io_EOF) sample_session) = io_EOF ∧
  ∃ w1,
    handleTCPClient_loop 1 sample_session (sample_world [] io_EOF) = Ret None w1 ∧
    ¬ member (srv w1) 0 sample_session ∧
    ListenTCP_cleanup sample_session None w1 = Ret tt w1 ∧
    closed (conns w1 sample_session) = false.
Proof.
  assert (s_id sample_session < length (stratum (srv (sample_world [] io_EOF)))) as Hlt
    by (simpl; lia).
  split; [exact Hlt|]. split; [reflexivity|]. split; [reflexivity|].
  destruct (eof_removes_and_returns_nil sample_session _ 0 Hlt eq_refl eq_refl)
    as (w1 & Hr & _ & Hm & Hc & Hcl).
  exists w1. split; [exact Hr|]. split; [exact Hm|]. split; [exact Hc|exact Hcl].
Defined.

(** A request whose parameters are a JSON object, and a line that is not
    JSON. *)
Lemma decode_failure_closes_witness :
  endpoint_ok (srv (sample_world (line_bad_params ++ [LF]) io_EOF)) (s_id sample_session) ∧
  ReadLine (conns (sample_world (line_bad_params ++ [LF]) io_EOF) sample_session) =
    (line_bad_params, false, None, sample_conn [] io_EOF) ∧
  1 < length line_bad_params ∧
  (∃ w1 w2,
     handleTCPClient_loop 1 sample_session (sample_world (line_bad_params ++ [LF]) io_EOF) =
       Ret (Some (json_Error "cannot unmarshal into Go value of type []string")) w1 ∧
     srv w1 = srv (sample_world (line_bad_params ++ [LF]) io_EOF) ∧
     ListenTCP_cleanup sample_session
       (Some (json_Error "cannot unmarshal into Go value of type []string")) w1 = Ret tt w2 ∧
     closed (conns w2 sample_session) = true ∧
     policy (srv w2) = [] ∧
     wlog (conns w2 sample_session) = []) ∧
  (∃ w1 w2,
     handleTCPClient_loop 1 sample_session (sample_world (line_garbage ++ [LF]) io_EOF) =
       Ret (Some (json_Error "invalid character")) w1 ∧
     policy (srv w1) = [ApplyMalformedPolicy "203.0.113.7"] ∧
     ListenTCP_cleanup sample_session (Some (json_Error "invalid character")) w1 = Ret tt w2 ∧
     closed (conns w2 sample_session) = true ∧
     wlog (conns w2 sample_session) = []).
Proof.
  assert (∀ input, endpoint_ok (srv (sample_world input io_EOF)) (s_id sample_session))
    as Hok by (intros input; split; simpl; lia).
  assert (ReadLine (conns (sample_world (line_bad_params ++ [LF]) io_EOF) sample_session) =
            (line_bad_params, false, None, sample_conn [] io_EOF)) as Hr
    by (vm_compute; reflexivity).
  assert (1 < length line_bad_params) as Hlen
    by (apply Nat.ltb_lt; vm_compute; reflexivity).
  split; [apply Hok|]. split; [exact Hr|]. split; [exact Hlen|]. split.
  - destruct (decode_failure_closes sample_session _ 0 _ _ (Hok _) Hr Hlen) as [_ Hparams].
    assert (json_Unmarshal_StratumReq line_bad_params = Decoded req_bad_params) as Hd
      by (vm_compute; reflexivity).
    destruct (Hparams req_bad_params
                (json_Error "cannot unmarshal into Go value of type []string")
                Hd (or_intror (or_intror eq_refl)) eq_refl)
      as (w1 & w2 & Hrun & Hs & _ & Hcl & _ & Hc & Hp & Hw).
    exists w1, w2. split; [exact Hrun|]. split; [exact Hs|]. split; [exact Hcl|].
    split; [exact Hc|]. split; [exact Hp|exact Hw].
  - assert (ReadLine (conns (sample_world (line_garbage ++ [LF]) io_EOF) sample_session) =
              (line_garbage, false, None, sample_conn [] io_EOF)) as Hr'
      by (vm_compute; reflexivity).
    assert (1 < length line_garbage) as Hlen'
      by (apply Nat.ltb_lt; vm_compute; reflexivity).
    destruct (decode_failure_closes sample_session _ 0 _ _ (Hok _) Hr' Hlen') as [Hjson _].
    assert (json_Unmarshal_StratumReq line_garbage = Malformed (json_Error "invalid character"))
      as Hd by (vm_compute; reflexivity).
    destruct (Hjson _ Hd) as (w1 & w2 & Hrun & Hp & _ & Hcl & _ & Hc & _ & Hw).
    exists w1, w2. split; [exact Hrun|]. split; [exact Hp|]. split; [exact Hcl|].
    split; [exact Hc|exact Hw].
Defined.

(** A request for [eth_getBalance], followed by a second request. *)
Lemma unknown_method_is_fatal_witness :
  endpoint_ok (srv (sample_world (line_unknown ++ [LF] ++ line_hashrate ++ [LF]) io_EOF))
    (s_id sample_session) ∧
  ReadLine (conns (sample_world (line_unknown ++ [LF] ++ line_hashrate ++ [LF]) io_EOF)
              sample_session) =
    (line_unknown, false, None, sample_conn (line_hashrate ++ [LF]) io_EOF) ∧
  1 < length line_unknown ∧
  json_Unmarshal_StratumReq line_unknown = Decoded req_unknown ∧
  unknown_method (Method req_unknown) ∧
  ∃ w1 w2,
    handleTCPClient_loop 1 sample_session
      (sample_world (line_unknown ++ [LF] ++ line_hashrate ++ [LF]) io_EOF) =
      Ret (Some (errors_New "Method not found")) w1 ∧
    rd (conns w1 sample_session) = line_hashrate ++ [LF] ∧
    ListenTCP_cleanup sample_session (Some (errors_New "Method not found")) w1 = Ret tt w2 ∧
    ¬ member (srv w2) 0 sample_session ∧
    closed (conns w2 sample_session) = true.
Proof.
  assert (endpoint_ok
            (srv (sample_world (line_unknown ++ [LF] ++ line_hashrate ++ [LF]) io_EOF))
            (s_id sample_session)) as Hok by (split; simpl; lia).
  assert (ReadLine (conns (sample_world (line_unknown ++ [LF] ++ line_hashrate ++ [LF]) io_EOF)
                      sample_session) =
            (line_unknown, false, None, sample_conn (line_hashrate ++ [LF]) io_EOF)) as Hr
    by (vm_compute; reflexivity).
  assert (1 < length line_unknown) as Hlen
    by (apply Nat.ltb_lt; vm_compute; reflexivity).
  assert (json_Unmarshal_StratumReq line_unknown = Decoded req_unknown) as Hd
    by (vm_compute; reflexivity).
  assert (unknown_method (Method req_unknown)) as Hm by (repeat split; discriminate).
  split; [exact Hok|]. split; [exact Hr|]. split; [exact Hlen|]. split; [exact Hd|].
  split; [exact Hm|].
  destruct (unknown_method_is_fatal sample_session _ 0 _ _ _ _
              {| Code := -3; Message := "Method not found" |} Hok Hr Hlen Hd Hm eq_refl)
    as (w1 & w2 & Hrun & _ & Hrd & Hcl & Hnm & Hc).
  exists w1, w2. split; [exact Hrun|]. split; [exact Hrd|]. split; [exact Hcl|].
  split; [exact Hnm|exact Hc].
Defined.

(** C1, as the specification states it, fails on a request for the method
    [eth_getBalance] followed by a second request: the error envelope is
    the only message on the wire, the second line is never read, the
    session is out of the registry and its transport is closed. *)
Lemma unknown_method_counterexample :
  json_Unmarshal_StratumReq line_unknown = Decoded req_unknown ∧
  unknown_method (Method req_unknown) ∧
  outcome
    (ListenTCP_go sample_session
       (sample_world (line_unknown ++ [LF] ++ line_hashrate ++ [LF]) io_EOF))
    (λ _ w, (wire (conns w sample_session), rd (conns w sample_session),
             registeredb (srv w) sample_session, closed (conns w sample_session))) =
  Some ([error_envelope (bytes "5") {| Code := -3; Message := "Method not found" |}],
        line_hashrate ++ [LF], false, true).
Proof.
  split; [vm_compute; reflexivity|].
  split; [repeat split; discriminate|].
  vm_compute. reflexivity.
Qed.

(** C2, as the specification states it, fails on a request for
    [eth_submitWork] whose parameters are a JSON object: the session is
    closed without a reply, but [ApplyMalformedPolicy] is not called. *)
Lemma malformed_params_counterexample :
  json_Unmarshal_StratumReq line_bad_params = Decoded req_bad_params ∧
  json_Unmarshal_strings (Params req_bad_params) =
    Malformed (json_Error "cannot unmarshal into Go value of type []string") ∧
  outcome
    (ListenTCP_go sample_session (sample_world (line_bad_params ++ [LF]) io_EOF))
    (λ _ w, (policy (srv w), wlog (conns w sample_session),
             closed (conns w sample_session))) =
  Some ([], [], true).
Proof.
  split; [vm_compute; reflexivity|].
  split; [vm_compute; reflexivity|].
  vm_compute. reflexivity.
Qed.

(** The deadline of a fresh session, five seconds after the first reading
    of the clock. *)
Lemma deadline_renewal_points_witness :
  stratum (srv (sample_world (line_hashrate ++ [LF]) io_EOF)) !! s_id sample_session =
    Some {| timeout := 5000000000; diff := "0xdiff"; sessions := {[ sample_session ]} |} ∧
  s_id sample_session < length config_Stratum ∧
  closed (conns (sample_world (line_hashrate ++ [LF]) io_EOF) sample_session) = false ∧
  ∃ w1,
    handleTCPClient sample_session (sample_world (line_hashrate ++ [LF]) io_EOF) =
      handleTCPClient_loop
        (S (length (rd (conns (sample_world (line_hashrate ++ [LF]) io_EOF) sample_session))))
        sample_session w1 ∧
    deadline (conns w1 sample_session) = Some 5000000000%Z ∧
    ticks w1 = 1.
Proof.
  assert (s_id sample_session < length config_Stratum) as Hlt by (simpl; lia).
  split; [reflexivity|]. split; [exact Hlt|]. split; [reflexivity|].
  destruct (deadline_renewal_points sample_session
              (sample_world (line_hashrate ++ [LF]) io_EOF) _ eq_refl Hlt eq_refl)
    as [(w1 & Hrun & Hd & Ht & _) _].
  exists w1. split; [exact Hrun|]. split; [exact Hd|exact Ht].
Defined.

(** A broadcast to a healthy member and to one behind a broken pipe. *)
Lemma broadcast_invariant_witness :
  endpoint_ok (srv broadcast_world) 0 ∧
  registry_wf (srv broadcast_world) ∧
  (∀ m n, m < n → (clock m < clock n)%Z) ∧
  write_outcome (conns broadcast_world sample_session) = None ∧
  write_outcome (conns broadcast_world other_session) = Some (net_Error "broken pipe") ∧
  ∃ w',
    broadcastNewJobs 0 broadcast_world = Ret tt w' ∧
    member (srv w') 0 sample_session ∧
    (∃ d', deadline (conns w' sample_session) = Some d' ∧ (5000000000 < d')%Z) ∧
    ¬ member (srv w') 0 other_session ∧
    deadline (conns w' other_session) = None.
Proof.
  assert (endpoint_ok (srv broadcast_world) 0) as Hok by (split; simpl; lia).
  assert (registry_wf (srv broadcast_world)) as Hid.
  { intros i cs (st & Hst & Hin). destruct i as [|i]; [|done].
    injection Hst as <-. apply elem_of_union in Hin as [Hin|Hin];
      apply elem_of_singleton in Hin; by subst. }
  assert (∀ m n, m < n → (clock m < clock n)%Z) as Hclock by (intros m n Hmn; simpl; lia).
  assert (write_outcome (conns broadcast_world sample_session) = None) as Hw1
    by (vm_compute; reflexivity).
  assert (write_outcome (conns broadcast_world other_session) = Some (net_Error "broken pipe"))
    as Hw2 by (vm_compute; reflexivity).
  assert (deadline (conns broadcast_world sample_session) = Some 5000000000%Z) as Hd1
    by (vm_compute; reflexivity).
  assert (deadline (conns broadcast_world other_session) = None) as Hd2
    by (vm_compute; reflexivity).
  split; [exact Hok|]. split; [exact Hid|]. split; [exact Hclock|].
  split; [exact Hw1|]. split; [exact Hw2|].
  destruct (broadcast_invariant 0 broadcast_world
              {| timeout := 5000000000; diff := "0xdiff";
                 sessions := {[ sample_session; other_session ]} |}
              {| Header := "0xheader"; Seed := "0xseed" |}
              Hok eq_refl Hid eq_refl (λ H, Nat.neq_succ_0 _ H) eq_refl Hclock)
    as (w' & Hrun & Hall).
  { intros cs d Hin Hd. apply elem_of_union in Hin as [Hin|Hin];
      apply elem_of_singleton in Hin; subst cs.
    - exists 0. split; [simpl; lia|]. rewrite Hd1 in Hd. by injection Hd as <-.
    - by rewrite Hd2 in Hd. }
  exists w'. split; [exact Hrun|].
  pose proof (Hall sample_session (proj2 (elem_of_union _ _ _)
                (or_introl (proj2 (elem_of_singleton _ _) eq_refl)))) as Hs.
  pose proof (Hall other_session (proj2 (elem_of_union _ _ _)
                (or_intror (proj2 (elem_of_singleton _ _) eq_refl)))) as Ho.
  rewrite Hw1 in Hs. rewrite Hw2 in Ho.
  destruct Hs as [Hm (d' & Hd' & _ & Hlater)]. destruct Ho as [Hnm Hkeep].
  split; [exact Hm|].
  split; [exists d'; split; [exact Hd'|exact (Hlater _ Hd1)]|].
  split; [exact Hnm|]. by rewrite Hkeep, Hd2.
Defined.

(** The scenario of the specification for a flood: two thousand bytes
    without a line feed.  The address is banned and nothing is written,
    but after the goroutine of [ListenTCP] has finished the session is
    still registered and its transport is not closed. *)
Example flood_scenario :
  outcome (ListenTCP_go sample_session (sample_world (repeat x61 2000) io_EOF))
    (λ _ w, (policy (srv w), wlog (conns w sample_session),
             registeredb (srv w) sample_session, closed (conns w sample_session))) =
  Some ([BanClient "203.0.113.7"], [], true, false).
Proof. vm_compute. reflexivity. Qed.

(** A client that sends one request and disconnects: the request is
    answered and the session leaves the registry, but the transport is
    never closed. *)
Example eof_scenario :
  outcome (ListenTCP_go sample_session (sample_world (line_hashrate ++ [LF]) io_EOF))
    (λ _ w, (wire (conns w sample_session), registeredb (srv w) sample_session,
             closed (conns w sample_session))) =
  Some ([result_envelope (bytes "1") (JBool true)], false, false).
Proof. vm_compute. reflexivity. Qed.

(** A read error, here an expired deadline, takes the other exit: the
    session is removed and the transport closed. *)
Example timeout_scenario :
  outcome (ListenTCP_go sample_session
             (sample_world (line_hashrate ++ [LF]) (net_Error "i/o timeout")))
    (λ _ w, (wire (conns w sample_session), registeredb (srv w) sample_session,
             closed (conns w sample_session))) =
  Some ([result_envelope (bytes "1") (JBool true)], false, true).
Proof. vm_compute. reflexivity. Qed.

(** ** Further properties of stratum.go *)

Section Coverage.

Context {HState : Type} `{!@Collaborators HState}.

Implicit Types (s : @ProxyServer HState) (w : @World HState) (cs : Session)
  (c : Conn) (st : Stratum).

(** *** The registry *)

Lemma registerSession_Some s cs st :
  stratum s !! s_id cs = Some st →
  registerSession cs s =
    Some (with_stratum s (<[s_id cs := with_sessions st ({[cs]} ∪ sessions st)]> (stratum s))).
Proof. intros Hst. unfold registerSession. by rewrite Hst. Qed.

Lemma registerSession_present s cs st :
  stratum s !! s_id cs = Some st → cs ∈ sessions st → registerSession cs s = Some s.
Proof.
  intros Hst Hin. rewrite (registerSession_Some _ _ _ Hst). f_equal.
  assert ({[cs]} ∪ sessions st = sessions st) as -> by set_solver.
  assert (with_sessions st (sessions st) = st) as -> by by destruct st.
  rewrite list_insert_id by done. by destruct s.
Qed.

(** X1. [registerSession] never fails on a session of a configured
    endpoint; it adds the membership of [cs] in the registry of its own
    endpoint and changes no other membership; on a member it leaves the
    server as it was, so registering twice is registering once; the policy
    calls and the state of the collaborators are not touched. *)
Theorem registerSession_adds s cs :
  s_id cs < length (stratum s) →
  ∃ s',
    registerSession cs s = Some s' ∧
    (∀ i cs', member s' i cs' ↔ member s i cs' ∨ (i = s_id cs ∧ cs' = cs)) ∧
    (member s (s_id cs) cs → s' = s) ∧
    registerSession cs s' = Some s' ∧
    policy s' = policy s ∧ ext s' = ext s ∧
    length (stratum s') = length (stratum s).
Proof.
  intros Hlt.
  destruct (lookup_lt_is_Some_2 _ _ Hlt) as [st Hst].
  pose proof (registerSession_Some _ _ _ Hst) as Hr.
  eexists. split; [exact Hr|].
  split; [intros i cs'; by apply registerSession_member|].
  split.
  { intros (st' & Hst' & Hin). rewrite Hst in Hst'. injection Hst' as <-.
    pose proof (registerSession_present _ _ _ Hst Hin) as Hr'. congruence. }
  split.
  { set (s' := with_stratum s _) in *.
    assert (stratum s' !! s_id cs = Some (with_sessions st ({[cs]} ∪ sessions st))) as Hst'.
    { simpl. by rewrite list_lookup_insert_eq. }
    apply (registerSession_present _ _ _ Hst'). simpl. set_solver. }
  simpl. by rewrite length_insert.
Qed.

(** X2. Registering a session that was not a member and removing it again
    gives back the very server there was; so does removing a member and
    registering it again. *)
Theorem register_remove_round_trip s cs :
  s_id cs < length (stratum s) →
  (¬ member s (s_id cs) cs →
     ∃ s1, registerSession cs s = Some s1 ∧ removeSession cs s1 = Some s) ∧
  (member s (s_id cs) cs →
     ∃ s1, removeSession cs s = Some s1 ∧ registerSession cs s1 = Some s).
Proof.
  intros Hlt.
  destruct (lookup_lt_is_Some_2 _ _ Hlt) as [st Hst].
  assert (with_sessions st (sessions st) = st) as Heta by by destruct st.
  split.
  - intros Hnm.
    assert (cs ∉ sessions st) as Hnin by (intros Hin; apply Hnm; by exists st).
    eexists. split; [by apply registerSession_Some|].
    unfold removeSession. simpl.
    rewrite list_lookup_insert_eq by done. simpl.
    rewrite list_insert_insert_eq.
    assert (with_sessions (with_sessions st ({[cs]} ∪ sessions st))
              (({[cs]} ∪ sessions st) ∖ {[cs]}) = st) as ->.
    { clear Hst Heta. destruct st as [to df X]. unfold with_sessions. simpl in *.
      f_equal. clear Hnm. apply set_eq. intros x. set_solver. }
    rewrite (list_insert_id (stratum s) (s_id cs) st) by done. by destruct s.
  - intros (st' & Hst' & Hin). rewrite Hst in Hst'. injection Hst' as <-.
    eexists. split; [by apply removeSession_Some|].
    unfold registerSession. simpl.
    rewrite list_lookup_insert_eq by done. simpl.
    rewrite list_insert_insert_eq.
    assert (with_sessions (with_sessions st (sessions st ∖ {[cs]}))
              ({[cs]} ∪ sessions st ∖ {[cs]}) = st) as ->.
    { clear Hst Heta. destruct st as [to df X]. unfold with_sessions. simpl in *.
      f_equal. apply set_eq. intros x. destruct (decide (x = cs)); set_solver. }
    rewrite (list_insert_id (stratum s) (s_id cs) st) by done. by destruct s.
Qed.

(** X3. Both operations keep the registries well formed: as they file a
    session under the index it carries, a session is never a member of the
    registry of another endpoint than its own. *)
Theorem registry_wf_kept s s' cs :
  registry_wf s →
  registerSession cs s = Some s' ∨ removeSession cs s = Some s' →
  registry_wf s'.
Proof.
  intros Hwf [Hr|Hr] i cs' Hm.
  - apply (registerSession_member _ _ _ _ _ Hr) in Hm.
    destruct Hm as [Hm|[-> ->]]; [by apply Hwf|done].
  - apply (removeSession_member _ _ _ _ _ Hr) in Hm. apply Hwf, Hm.
Qed.

(** *** Lines and read errors *)

(** X4. An empty line, or a line of a single byte, is skipped: the handler
    goes on with the bytes after its terminator, and nothing else has
    changed, neither the server nor the clock, the deadline, the log of
    writes or any other session. *)
Theorem short_line_skipped cs w fuel line rest :
  rd (conns w cs) = line ++ LF :: rest →
  index_LF line = None →
  length line < MaxReqSize →
  length (drop_CR line) ≤ 1 →
  ∃ w1,
    handleTCPClient_loop (S fuel) cs w = handleTCPClient_loop fuel cs w1 ∧
    rd (conns w1 cs) = rest ∧
    srv w1 = srv w ∧ ticks w1 = ticks w ∧
    (∀ cs', cs' ≠ cs → conns w1 cs' = conns w cs') ∧
    wlog (conns w1 cs) = wlog (conns w cs) ∧
    deadline (conns w1 cs) = deadline (conns w cs) ∧
    closed (conns w1 cs) = closed (conns w cs).
Proof.
  intros Hrd Hlf Hlen Hshort.
  pose proof (ReadLine_line _ _ _ Hrd Hlf Hlen) as Hr.
  exists (upd_conn w cs (with_rd (conns w cs) rest)).
  split; [by rewrite loop_step, (iter_short _ _ _ _ Hr Hshort)|].
  rewrite upd_conn_same. split; [done|]. split; [done|]. split; [done|].
  split; [intros cs' Hne; by rewrite upd_conn_other|]. done.
Qed.

(** X5. When the transport reports an error that is not the end of the
    stream (a reset, an expired deadline) the handler returns that error,
    having written nothing and called no policy, and the goroutine of
    [ListenTCP] removes the session from its registry and closes the
    transport. *)
Theorem read_error_closes cs w fuel :
  s_id cs < length (stratum (srv w)) →
  rd (conns w cs) = [] →
  rd_end (conns w cs) ≠ io_EOF →
  ∃ w1 w2,
    handleTCPClient_loop (S fuel) cs w = Ret (Some (rd_end (conns w cs))) w1 ∧
    srv w1 = srv w ∧
    wlog (conns w1 cs) = wlog (conns w cs) ∧
    ListenTCP_cleanup cs (Some (rd_end (conns w cs))) w1 = Ret tt w2 ∧
    ¬ member (srv w2) (s_id cs) cs ∧
    closed (conns w2 cs) = true ∧
    policy (srv w2) = policy (srv w) ∧
    wlog (conns w2 cs) = wlog (conns w cs).
Proof.
  intros Hlt Hrd Hne.
  pose proof (ReadLine_end _ Hrd) as Hr.
  set (w1 := upd_conn w cs (conns w cs)).
  destruct (cleanup_closes cs (rd_end (conns w cs)) w1 Hlt)
    as (w2 & Hcl & Hnm & Hc & Hp & Hw).
  exists w1, w2.
  split; [by rewrite loop_step, (iter_error _ _ _ _ _ Hr Hne)|].
  split; [done|].
  assert (wlog (conns w1 cs) = wlog (conns w cs)) as Hw1
    by (unfold w1; by rewrite upd_conn_same).
  split; [done|]. split; [done|]. split; [done|]. split; [done|].
  split; [done|]. by rewrite Hw.
Qed.

(** X6. Where the flood starts.  A line of exactly [MaxReqSize] bytes
    before its line feed already fills the buffer: the address is banned
    and the handler returns [nil].  The same garbage one byte shorter is
    read whole and handed to the decoder: it is a malformed request, the
    handler returns the error of the decoder and the rest of the input is
    left unread. *)
Theorem flood_boundary cs w fuel line rest :
  rd (conns w cs) = line ++ LF :: rest →
  index_LF line = None →
  (length line = MaxReqSize →
     ∃ w1,
       handleTCPClient_loop (S fuel) cs w = Ret None w1 ∧
       policy (srv w1) = policy (srv w) ++ [BanClient (ip cs)]) ∧
  (length line < MaxReqSize →
     1 < length (drop_CR line) →
     ∀ e, json_Unmarshal_StratumReq (drop_CR line) = Malformed e →
       ∃ w1,
         handleTCPClient_loop (S fuel) cs w = Ret (Some e) w1 ∧
         policy (srv w1) = policy (srv w) ++ [ApplyMalformedPolicy (ip cs)] ∧
         rd (conns w1 cs) = rest).
Proof.
  intros Hrd Hlf. split.
  - intros Hlen.
    destruct (ReadLine_full (conns w cs) line (LF :: rest) Hrd Hlf Hlen) as (data & c' & Hr).
    eexists. split; [by rewrite loop_step, (iter_flood _ _ _ _ _ Hr)|]. done.
  - intros Hlen Hlong e Hd.
    pose proof (ReadLine_line _ _ _ Hrd Hlf Hlen) as Hr.
    eexists. split; [by rewrite loop_step, (iter_malformed _ _ _ _ _ Hr Hlong Hd)|].
    split; [done|]. simpl. by rewrite fn_lookup_insert.
Qed.

(** *** Replies and the life of the session *)

Lemma rpc_handler_endpoints cs req h s :
  rpc_handler cs req h → length (stratum (h s).1) = length (stratum s).
Proof.
  intros [params _ _| _ |params _ _].
  - apply handleLoginRPC_endpoints.
  - apply handleGetWorkRPC_endpoints.
  - apply handleTCPSubmitRPC_endpoints.
Qed.

(** The pass of the loop that dispatches a request to an RPC handler. *)
Lemma iter_delegates cs w data c' req h st :
  s_id cs < length config_Stratum →
  stratum (srv w) !! s_id cs = Some st →
  ReadLine (conns w cs) = (data, false, None, c') →
  1 < length data →
  json_Unmarshal_StratumReq data = Decoded req →
  rpc_handler cs req h →
  ∃ w1,
    handleTCPClient_iter cs w =
      Ret (match (h (srv w)).2.2, write_outcome (conns w cs) with
           | Some errReply, None => Return (Some (errors_New (Message errReply)))
           | _, Some e => Return (Some e)
           | None, None => Continue
           end) w1 ∧
    srv w1 = (h (srv w)).1 ∧
    wlog (conns w1 cs) =
      wlog (conns w cs) ++
        [(match (h (srv w)).2.2 with
          | Some errReply => error_envelope (Id req) errReply
          | None => result_envelope (Id req) (h (srv w)).2.1
          end, write_outcome (conns w cs))] ∧
    rd (conns w1 cs) = rd c' ∧
    closed (conns w1 cs) = closed (conns w cs) ∧
    (∀ cs', cs' ≠ cs → conns w1 cs' = conns w cs').
Proof.
  intros Hc Hst Hr Hlen Hd Hh.
  destruct (ReadLine_frame _ _ _ _ _ Hr) as (_ & _ & Hl & _ & Hcl).
  pose proof (write_outcome_ReadLine _ _ _ _ _ Hr) as Hwo.
  set (w0 := upd_conn (tick (upd_conn w cs c')) cs
               (SetDeadline c' (clock (ticks w) + timeout st))).
  assert (write_outcome (conns (with_srv w0 (h (srv w)).1) cs) = write_outcome (conns w cs))
    as Hwo1.
  { simpl. by rewrite fn_lookup_insert, write_outcome_SetDeadline. }
  exists (upd_conn (with_srv w0 (h (srv w)).1) cs
            (Encode (conns (with_srv w0 (h (srv w)).1) cs)
               (match (h (srv w)).2.2 with
                | Some errReply => error_envelope (Id req) errReply
                | None => result_envelope (Id req) (h (srv w)).2.1
                end)).1).
  split.
  { rewrite (iter_request _ _ _ _ _ _ Hr Hlen Hd Hst). fold w0.
    unfold bind at 1. rewrite (handleTCPMessage_delegates _ _ _ _ Hc Hh).
    unfold bind at 1, lift_srv. change (srv w0) with (srv w).
    rewrite reply_run, Hwo1.
    destruct ((h (srv w)).2.2), (write_outcome (conns w cs)); reflexivity. }
  split; [done|].
  rewrite upd_conn_same, Encode_wlog, Hwo1.
  split.
  { simpl. by rewrite fn_lookup_insert, wlog_SetDeadline, Hl. }
  split.
  { simpl. by rewrite fn_lookup_insert, rd_SetDeadline. }
  split.
  { simpl. rewrite fn_lookup_insert. unfold SetDeadline.
    destruct (closed c') eqn:Hcc; simpl; congruence. }
  intros cs' Hne. simpl. by rewrite !fn_lookup_insert_ne.
Qed.

(** X7. A request the RPC handler rejects ends the session: the error
    envelope is handed to the encoder, the handler returns a non-nil error
    (that of the write, or one made of the message of the reply) without
    reading on, and the goroutine of [ListenTCP] removes the session and
    closes the transport. *)
Theorem rpc_error_is_fatal cs w fuel data c' req h errReply :
  endpoint_ok (srv w) (s_id cs) →
  ReadLine (conns w cs) = (data, false, None, c') →
  1 < length data →
  json_Unmarshal_StratumReq data = Decoded req →
  rpc_handler cs req h →
  (h (srv w)).2.2 = Some errReply →
  ∃ e w1 w2,
    handleTCPClient_loop (S fuel) cs w = Ret (Some e) w1 ∧
    e = match write_outcome (conns w cs) with
        | Some e' => e'
        | None => errors_New (Message errReply)
        end ∧
    wlog (conns w1 cs) =
      wlog (conns w cs) ++ [(error_envelope (Id req) errReply, write_outcome (conns w cs))] ∧
    rd (conns w1 cs) = rd c' ∧
    ListenTCP_cleanup cs (Some e) w1 = Ret tt w2 ∧
    ¬ member (srv w2) (s_id cs) cs ∧
    closed (conns w2 cs) = true.
Proof.
  intros [Hs Hc] Hr Hlen Hd Hh Herr.
  destruct (lookup_lt_is_Some_2 _ _ Hs) as [st Hst].
  destruct (iter_delegates _ _ _ _ _ _ _ Hc Hst Hr Hlen Hd Hh)
    as (w1 & Hi & Hsrv & Hw & Hrd & _ & _).
  rewrite Herr in Hi, Hw.
  set (e := match write_outcome (conns w cs) with
            | Some e' => e'
            | None => errors_New (Message errReply)
            end).
  assert (s_id cs < length (stratum (srv w1))) as Hs1
    by (rewrite Hsrv, (rpc_handler_endpoints _ _ _ _ Hh); done).
  destruct (cleanup_closes cs e w1 Hs1) as (w2 & Hcl & Hnm & Hcd & _ & _).
  exists e, w1, w2.
  split.
  { rewrite loop_step, Hi. unfold e. by destruct (write_outcome (conns w cs)). }
  done.
Qed.

(** X8. A request the RPC handler accepts keeps the session going exactly
    when its result envelope could be written: the handler then goes on
    with the next line, the server being as the RPC handler left it; when
    the write fails the handler returns the error of the write. *)
Theorem rpc_success_continues cs w fuel data c' req h :
  endpoint_ok (srv w) (s_id cs) →
  ReadLine (conns w cs) = (data, false, None, c') →
  1 < length data →
  json_Unmarshal_StratumReq data = Decoded req →
  rpc_handler cs req h →
  (h (srv w)).2.2 = None →
  ∃ w1,
    handleTCPClient_loop (S fuel) cs w =
      match write_outcome (conns w cs) with
      | None => handleTCPClient_loop fuel cs w1
      | Some e => Ret (Some e) w1
      end ∧
    srv w1 = (h (srv w)).1 ∧
    wlog (conns w1 cs) =
      wlog (conns w cs) ++
        [(result_envelope (Id req) (h (srv w)).2.1, write_outcome (conns w cs))] ∧
    rd (conns w1 cs) = rd c' ∧
    closed (conns w1 cs) = closed (conns w cs) ∧
    endpoint_ok (srv w1) (s_id cs).
Proof.
  intros [Hs Hc] Hr Hlen Hd Hh Hok.
  destruct (lookup_lt_is_Some_2 _ _ Hs) as [st Hst].
  destruct (iter_delegates _ _ _ _ _ _ _ Hc Hst Hr Hlen Hd Hh)
    as (w1 & Hi & Hsrv & Hw & Hrd & Hcl & _).
  rewrite Hok in Hi, Hw.
  exists w1. split.
  { rewrite loop_step, Hi. by destruct (write_outcome (conns w cs)). }
  split; [done|]. split; [done|]. split; [done|]. split; [done|].
  split; [|done]. by rewrite Hsrv, (rpc_handler_endpoints _ _ _ _ Hh).
Qed.

(** *** What a session handler may touch *)

(** An entry of the log of writes that is a response of version 2.0. *)
Definition is_reply (x : Envelope * option error) : Prop :=
  ∃ m, x.1 = RpcResp m ∧ resp_Version m = "2.0".

(** What the handler of [cs] may have done between [w] and [w']: it has
    handed responses to its own encoder, and neither closed its transport
    nor touched the transport of another session or the number of
    endpoints. *)
Definition handler_effects cs w w' : Prop :=
  length (stratum (srv w')) = length (stratum (srv w)) ∧
  (∀ cs', cs' ≠ cs → conns w' cs' = conns w cs') ∧
  closed (conns w' cs) = closed (conns w cs) ∧
  ∃ l, wlog (conns w' cs) = wlog (conns w cs) ++ l ∧ Forall is_reply l.

Lemma handler_effects_refl cs w : handler_effects cs w w.
Proof.
  split; [done|]. split; [done|]. split; [done|].
  exists []. by rewrite app_nil_r.
Qed.

Lemma handler_effects_trans cs w1 w2 w3 :
  handler_effects cs w1 w2 → handler_effects cs w2 w3 → handler_effects cs w1 w3.
Proof.
  intros (Hl1 & Ho1 & Hc1 & l1 & Hw1 & Hf1) (Hl2 & Ho2 & Hc2 & l2 & Hw2 & Hf2).
  split; [congruence|].
  split; [intros cs' Hne; by rewrite Ho2, Ho1|].
  split; [congruence|].
  exists (l1 ++ l2). split; [by rewrite Hw2, Hw1, app_assoc|].
  by apply Forall_app.
Qed.

(** Reading, a clock reading, a new deadline and a change of the server
    that keeps the endpoints are all within these bounds. *)
Lemma handler_effects_quiet cs w w' :
  length (stratum (srv w')) = length (stratum (srv w)) →
  (∀ cs', cs' ≠ cs → conns w' cs' = conns w cs') →
  closed (conns w' cs) = closed (conns w cs) →
  wlog (conns w' cs) = wlog (conns w cs) →
  handler_effects cs w w'.
Proof.
  intros Hl Ho Hc Hw. split; [done|]. split; [done|]. split; [done|].
  exists []. by rewrite app_nil_r.
Qed.

Lemma handler_effects_read cs w c' s' :
  length (stratum s') = length (stratum (srv w)) →
  closed c' = closed (conns w cs) →
  wlog c' = wlog (conns w cs) →
  handler_effects cs w (with_srv (upd_conn w cs c') s').
Proof.
  intros Hl Hc Hw. apply handler_effects_quiet; simpl; [done| |..].
  - intros cs' Hne. by rewrite fn_lookup_insert_ne.
  - by rewrite fn_lookup_insert.
  - by rewrite fn_lookup_insert.
Qed.

Lemma sendTCPError_writes cs id reply w e w' :
  sendTCPError cs id reply w = Ret e w' →
  w' = upd_conn w cs
         (Encode (conns w cs)
            (RpcResp {| resp_Id := id; resp_Version := "2.0"; resp_Result := JNull;
                        resp_Error := reply |})).1.
Proof.
  unfold sendTCPError, bind. rewrite conn_Encode_run.
  destruct (write_outcome (conns w cs)); [|destruct reply]; intros Hr;
    try done; by injection Hr as _ <-.
Qed.

Lemma handler_effects_send cs w s1 m :
  length (stratum s1) = length (stratum (srv w)) →
  resp_Version m = "2.0" →
  handler_effects cs w
    (upd_conn (with_srv w s1) cs (Encode (conns (with_srv w s1) cs) (RpcResp m)).1).
Proof.
  intros Hl Hv. split; [done|].
  split; [intros cs' Hne; by rewrite upd_conn_other|].
  rewrite upd_conn_same. split; [done|].
  eexists. split; [apply Encode_wlog|].
  apply Forall_singleton. by exists m.
Qed.

Lemma reply_effects cs id (r : JSONValue * option ErrorReply) w s1 e w' :
  length (stratum s1) = length (stratum (srv w)) →
  match r.2 with
  | Some errReply => sendTCPError cs id (Some errReply)
  | None => sendTCPResult cs id r.1
  end (with_srv w s1) = Ret e w' →
  handler_effects cs w w'.
Proof.
  intros Hl. rewrite reply_run. intros [= _ <-].
  destruct r as [v [errReply|]]; by apply handler_effects_send.
Qed.

Lemma handleTCPMessage_effects cs req w e w' :
  handleTCPMessage cs req w = Ret e w' → handler_effects cs w w'.
Proof.
  unfold handleTCPMessage. unfold bind at 1, index.
  destruct (config_Stratum !! s_id cs) as [cfg|]; [|done]. simpl.
  destruct (is_login (Method req)).
  { destruct (json_Unmarshal_strings (Params req)) as [params|err].
    - unfold bind, lift_srv. apply reply_effects, handleLoginRPC_endpoints.
    - intros [= _ <-]. apply handler_effects_refl. }
  destruct (Method req =? "eth_getWork")%string.
  { unfold bind, lift_srv. apply reply_effects, handleGetWorkRPC_endpoints. }
  destruct (Method req =? "eth_submitWork")%string.
  { destruct (json_Unmarshal_strings (Params req)) as [params|err].
    - unfold bind, lift_srv. apply reply_effects, handleTCPSubmitRPC_endpoints.
    - intros [= _ <-]. apply handler_effects_refl. }
  destruct (Method req =? "eth_submitHashrate")%string.
  { rewrite sendTCPResult_run. intros [= _ <-].
    by apply (handler_effects_send cs w (srv w)). }
  unfold bind, lift_srv. intros Hr. apply sendTCPError_writes in Hr as ->.
  apply handler_effects_send; [apply handleUnknownRPC_endpoints|done].
Qed.

Lemma iter_effects cs w step w' :
  handleTCPClient_iter cs w = Ret step w' → handler_effects cs w w'.
Proof.
  destruct (ReadLine (conns w cs)) as [[[data p] e] c'] eqn:Hr.
  destruct (ReadLine_frame _ _ _ _ _ Hr) as (_ & _ & Hl & _ & Hc).
  destruct p.
  { rewrite (iter_flood _ _ _ _ _ Hr). intros [= _ <-].
    by apply handler_effects_read. }
  destruct e as [e|].
  { destruct (decide (e = io_EOF)) as [->|Hne].
    - destruct (stratum (srv w) !! s_id cs) as [st|] eqn:Hst.
      + rewrite (iter_EOF _ _ _ _ _ Hr (removeSession_Some _ _ _ Hst)).
        intros [= _ <-]. apply handler_effects_read; [|done..].
        simpl. by rewrite length_insert.
      + unfold handleTCPClient_iter, bind, get_conn. rewrite Hr. simpl.
        unfold on_srv, removeSession. simpl. by rewrite Hst.
    - rewrite (iter_error _ _ _ _ _ Hr Hne). intros [= _ <-].
      by apply (handler_effects_read cs w c' (srv w)). }
  destruct (decide (1 < length data)) as [Hlen|Hlen].
  - destruct (json_Unmarshal_StratumReq data) as [req|err] eqn:Hd.
    + destruct (stratum (srv w) !! s_id cs) as [st|] eqn:Hst.
      * rewrite (iter_request _ _ _ _ _ _ Hr Hlen Hd Hst). unfold bind.
        destruct (handleTCPMessage cs req _) as [e w''| |] eqn:Hm; [|done..].
        intros Hret. assert (w'' = w') as <- by (by destruct e; injection Hret).
        apply handleTCPMessage_effects in Hm.
        eapply handler_effects_trans; [|exact Hm].
        apply handler_effects_quiet; simpl; [done| |..].
        -- intros cs' Hne. by rewrite !fn_lookup_insert_ne.
        -- rewrite fn_lookup_insert. unfold SetDeadline.
           destruct (closed c') eqn:Hcc; simpl; congruence.
        -- by rewrite fn_lookup_insert, wlog_SetDeadline.
      * unfold handleTCPClient_iter, bind, get_conn. rewrite Hr. simpl.
        rewrite bool_decide_eq_true_2 by done. rewrite Hd.
        unfold setDeadline, bind, time_Now, get_srv, index. simpl. by rewrite Hst.
    + rewrite (iter_malformed _ _ _ _ _ Hr Hlen Hd). intros [= _ <-].
      by apply handler_effects_read.
  - rewrite (iter_short _ _ _ _ Hr) by lia. intros [= _ <-].
    by apply (handler_effects_read cs w c' (srv w)).
Qed.

Lemma loop_effects cs fuel w e w' :
  handleTCPClient_loop fuel cs w = Ret e w' → handler_effects cs w w'.
Proof.
  revert w. induction fuel as [|fuel IH]; intros w; [done|].
  rewrite loop_step.
  destruct (handleTCPClient_iter cs w) as [step w1| |] eqn:Hi; [|done..].
  apply iter_effects in Hi.
  destruct step.
  - intros Hl. eapply handler_effects_trans; [exact Hi|by apply IH].
  - by intros [= _ <-].
  - by intros [= _ <-].
Qed.

Lemma handleTCPClient_effects cs w e w' :
  handleTCPClient cs w = Ret e w' → handler_effects cs w w'.
Proof.
  unfold handleTCPClient. unfold bind at 1.
  destruct (stratum (srv w) !! s_id cs) as [st|] eqn:Hst.
  - rewrite (setDeadline_run _ _ _ Hst). unfold bind at 1, index.
    destruct (config_Stratum !! s_id cs); [|done]. simpl ret.
    unfold bind at 1, get_conn. intros Hl. apply loop_effects in Hl.
    eapply handler_effects_trans; [|exact Hl].
    apply handler_effects_quiet; simpl; [done| |..].
    + intros cs' Hne. by rewrite fn_lookup_insert_ne.
    + rewrite fn_lookup_insert. unfold SetDeadline.
      by destruct (closed (conns w cs)) eqn:Hcc.
    + by rewrite fn_lookup_insert, wlog_SetDeadline.
  - unfold setDeadline, bind, time_Now, get_srv, index. simpl. by rewrite Hst.
Qed.

(** X9. The goroutine of a session works on that session alone: whatever
    the peer sends, the transport of every other session is afterwards
    exactly as it was, and all that was handed to the encoder of the
    session are responses of version 2.0, never a job notification. *)
Theorem session_isolation cs w w' :
  ListenTCP_go cs w = Ret tt w' →
  (∀ cs', cs' ≠ cs → conns w' cs' = conns w cs') ∧
  ∃ l, wlog (conns w' cs) = wlog (conns w cs) ++ l ∧ Forall is_reply l.
Proof.
  unfold ListenTCP_go, bind.
  destruct (handleTCPClient cs w) as [e w1| |] eqn:Hh; [|done..].
  apply handleTCPClient_effects in Hh as (_ & Ho & _ & l & Hw & Hf).
  destruct e as [e|].
  - unfold ListenTCP_cleanup, bind, on_srv.
    destruct (removeSession cs (srv w1)) as [s'|]; [|done].
    intros [= <-]. split.
    + intros cs' Hne. rewrite upd_conn_other by done. by apply Ho.
    + exists l. by rewrite upd_conn_same.
  - intros [= <-]. split; [done|]. by exists l.
Qed.

(** X13. On a session of a configured endpoint, and with an unknown-method
    handler that always builds a reply, the goroutine of [ListenTCP] comes
    to an end whatever the peer sends: no index is out of range, no nil
    pointer is read, and the read loop stops. *)
Theorem ListenTCP_go_returns cs w :
  endpoint_ok (srv w) (s_id cs) →
  (∀ m s, (handleUnknownRPC cs m s).2 ≠ None) →
  ∃ w', ListenTCP_go cs w = Ret tt w'.
Proof.
  intros Hok Hu.
  destruct (handleTCPClient_returns cs w Hok Hu) as (e & w1 & Hh).
  unfold ListenTCP_go, bind. rewrite Hh.
  destruct e as [e|]; [|by exists w1].
  apply handleTCPClient_effects in Hh as (Hl & _).
  destruct (cleanup_error cs e w1) as (s' & _ & Hcl); [destruct Hok; lia|].
  eauto.
Qed.

(** *** The broadcast, member by member *)

(** The notification of a job. *)
Definition job_notification (reply : JSONValue) : Envelope :=
  PushMessage {| push_Version := "2.0"; push_Result := reply; push_Id := 0 |}.

Lemma broadcast_go_effects reply cs w st :
  stratum (srv w) !! s_id cs = Some st →
  ∃ w1,
    broadcast_go reply cs w = Ret tt w1 ∧
    (∀ j cs', member (srv w1) j cs' ↔
       member (srv w) j cs' ∧
       ¬ (j = s_id cs ∧ cs' = cs ∧ is_Some (write_outcome (conns w cs)))) ∧
    policy (srv w1) = policy (srv w) ∧
    (∀ j, timeout <$> (stratum (srv w1) !! j) = timeout <$> (stratum (srv w) !! j)) ∧
    (∀ cs', cs' ≠ cs → conns w1 cs' = conns w cs') ∧
    wlog (conns w1 cs) =
      wlog (conns w cs) ++ [(job_notification reply, write_outcome (conns w cs))].
Proof.
  intros Hst. destruct (write_outcome (conns w cs)) as [err|] eqn:Hw.
  - eexists. split; [by eapply broadcast_go_failed|].
    split.
    { intros j cs'.
      rewrite (removeSession_member (srv w) _ cs j cs' (removeSession_Some _ _ _ Hst)).
      split; intros [Hm Hn]; (split; [done|]).
      - intros (-> & -> & _). by apply Hn.
      - intros [-> ->]. apply Hn. split; [done|]. split; [done|]. by eexists. }
    split; [done|].
    split; [intros j; by apply timeout_with_sessions|].
    split; [intros cs' Hne; simpl; by rewrite fn_lookup_insert_ne|].
    simpl. by rewrite fn_lookup_insert, Hw.
  - eexists. split; [by eapply broadcast_go_pushed|].
    split.
    { intros j cs'. split; [intros Hm; split; [done|]; by intros (_ & _ & [? ?])|].
      by intros [Hm _]. }
    split; [done|]. split; [done|].
    split; [intros cs' Hne; simpl; by rewrite !fn_lookup_insert_ne|].
    rewrite upd_conn_same, wlog_SetDeadline. by rewrite Encode_wlog, Hw.
Qed.

Lemma for_each_broadcast_effects reply i l :
  NoDup l →
  (∀ cs, cs ∈ l → s_id cs = i) →
  ∀ w st, stratum (srv w) !! i = Some st →
  ∃ w',
    for_each (broadcast_go reply) l w = Ret tt w' ∧
    (∀ j cs, member (srv w') j cs ↔
       member (srv w) j cs ∧
       ¬ (j = i ∧ cs ∈ l ∧ is_Some (write_outcome (conns w cs)))) ∧
    policy (srv w') = policy (srv w) ∧
    (∀ cs, cs ∉ l → conns w' cs = conns w cs) ∧
    (∀ cs, cs ∈ l →
       wlog (conns w' cs) =
         wlog (conns w cs) ++ [(job_notification reply, write_outcome (conns w cs))]).
Proof.
  induction l as [|cs l IH]; intros Hnd Hid w st Hst.
  { exists w. split; [done|]. split.
    - intros j cs. split; [intros Hm; split; [done|]|by intros [Hm _]].
      intros (_ & Hin & _). by apply elem_of_nil in Hin.
    - split; [done|]. split; [done|]. intros cs Hin. by apply elem_of_nil in Hin. }
  apply list.NoDup_cons in Hnd as [Hnin Hnd].
  assert (s_id cs = i) as Hi by (apply Hid; left).
  assert (stratum (srv w) !! s_id cs = Some st) as Hst0 by by rewrite Hi.
  destruct (broadcast_go_effects reply cs w st Hst0)
    as (w1 & Hrun & Hmem & Hpol & Htime & Hconns & Hwlog).
  assert (∃ st1, stratum (srv w1) !! i = Some st1) as (st1 & Hst1).
  { specialize (Htime i). rewrite Hst in Htime.
    destruct (stratum (srv w1) !! i) as [st1|]; [by exists st1|done]. }
  destruct (IH Hnd (λ cs' Hin, Hid cs' (list_elem_of_further _ _ _ Hin)) w1 st1 Hst1)
    as (w' & Hrun' & Hmem' & Hpol' & Hout & Hin).
  exists w'. split.
  { simpl. unfold bind. by rewrite Hrun. }
  split.
  { intros j x. rewrite Hmem', Hmem, Hi. split.
    - intros [[Hm Hn1] Hn2]. split; [done|].
      intros (-> & Hx & Hsome). apply elem_of_cons in Hx as [->|Hx].
      + by apply Hn1.
      + apply Hn2. split; [done|]. split; [done|].
        rewrite Hconns; [done|]. by intros ->.
    - intros [Hm Hn]. split; [split; [done|]|].
      + intros (-> & -> & Hsome). apply Hn. split; [done|]. split; [left|done].
      + intros (-> & Hx & Hsome). apply Hn. split; [done|].
        split; [by right|]. rewrite <- Hconns; [done|]. by intros ->. }
  split; [congruence|].
  split.
  { intros x Hx. apply not_elem_of_cons in Hx as [Hne Hx].
    by rewrite (Hout x Hx), Hconns. }
  intros x Hx. apply elem_of_cons in Hx as [->|Hx].
  - by rewrite (Hout cs Hnin).
  - assert (x ≠ cs) as Hne by (by intros ->).
    by rewrite (Hin x Hx), (Hconns x Hne).
Qed.

(** The broadcast comes down to the pushes, after a write to the backend
    and between two readings of the clock. *)
Lemma broadcastNewJobs_run i w st t cfg :
  config_Stratum !! i = Some cfg →
  stratum (srv w) !! i = Some st →
  currentBlockTemplate (srv w) = Some t →
  String.length (Header t) ≠ 0 →
  isSick (srv w) = false →
  broadcastNewJobs i w =
    (_ <- for_each (broadcast_go (JStrings [Header t; Seed t; diff st]))
            (range_order (sessions st)) ;;
     _ <- time_Now ;;
     ret tt)
    (tick (with_srv w {| stratum := stratum (srv w); policy := policy (srv w);
                         ext := WriteStratumState config_Name (Name cfg) (Listen cfg)
                                  (size (sessions st)) (Difficulty cfg)
                                  (ext (srv w)) |})).
Proof.
  intros Hcfg Hst Ht Hh Hsick.
  unfold broadcastNewJobs. unfold bind at 1. rewrite (index_run _ _ _ _ Hcfg).
  unfold bind at 1, get_srv. rewrite Ht.
  rewrite (proj2 (Nat.eqb_neq _ _) Hh), Hsick. simpl.
  unfold bind at 1. rewrite (index_run _ _ _ _ Hst).
  unfold bind at 1, lift_srv. simpl.
  by unfold bind at 1, time_Now.
Qed.

(** X10. The registries after a broadcast.  The members of the endpoint
    whose push failed are gone and no other membership has changed: no
    session was added and the registries of the other endpoints are as
    they were, so the registries are still well formed; the broadcast
    called no policy. *)
Theorem broadcast_registry i w st t :
  endpoint_ok (srv w) i →
  stratum (srv w) !! i = Some st →
  registry_wf (srv w) →
  currentBlockTemplate (srv w) = Some t →
  String.length (Header t) ≠ 0 →
  isSick (srv w) = false →
  ∃ w',
    broadcastNewJobs i w = Ret tt w' ∧
    (∀ j cs, member (srv w') j cs ↔
       member (srv w) j cs ∧ ¬ (j = i ∧ is_Some (write_outcome (conns w cs)))) ∧
    policy (srv w') = policy (srv w) ∧
    registry_wf (srv w').
Proof.
  intros [_ Hc] Hst Hwf Ht Hh Hsick.
  destruct (lookup_lt_is_Some_2 _ _ Hc) as [cfg Hcfg].
  assert (NoDup (range_order (sessions st))) as Hnd
    by (rewrite range_order_perm; apply NoDup_elements).
  assert (∀ cs, cs ∈ range_order (sessions st) ↔ cs ∈ sessions st) as Hel
    by (intros cs; rewrite range_order_perm; apply elem_of_elements).
  set (w0 := tick (with_srv w {| stratum := stratum (srv w); policy := policy (srv w);
                                 ext := WriteStratumState config_Name (Name cfg) (Listen cfg)
                                          (size (sessions st)) (Difficulty cfg)
                                          (ext (srv w)) |})).
  destruct (for_each_broadcast_effects (JStrings [Header t; Seed t; diff st]) i
              (range_order (sessions st)) Hnd
              (λ cs Hin, Hwf i cs (ex_intro _ st (conj Hst (proj1 (Hel cs) Hin))))
              w0 st Hst)
    as (w' & Hrun & Hmem & Hpol & _ & _).
  assert (∀ j cs, member (srv w') j cs ↔
            member (srv w) j cs ∧ ¬ (j = i ∧ is_Some (write_outcome (conns w cs)))) as Hall.
  { intros j cs. rewrite Hmem. change (member (srv w0) j cs) with (member (srv w) j cs).
    change (conns w0 cs) with (conns w cs).
    split; intros [Hm Hn]; (split; [done|]).
    - intros [-> Hsome]. apply Hn. split; [done|]. split; [|done].
      apply Hel. destruct Hm as (st' & Hst' & Hin). congruence.
    - intros (-> & _ & Hsome). by apply Hn. }
  exists (tick w'). split.
  { rewrite (broadcastNewJobs_run _ _ _ _ _ Hcfg Hst Ht Hh Hsick). fold w0.
    unfold bind at 1. by rewrite Hrun. }
  split; [exact Hall|]. split; [done|].
  intros j cs Hm. apply Hall in Hm as [Hm _]. by apply Hwf.
Qed.

(** X11. A broadcast hands exactly one notification
    [{"2.0", [header, seed, difficulty], id 0}] to the encoder of every
    member of the endpoint, whatever became of the earlier pushes, and
    leaves the transport of every session that is not a member as it
    was. *)
Theorem broadcast_pushes_once i w st t :
  endpoint_ok (srv w) i →
  stratum (srv w) !! i = Some st →
  registry_wf (srv w) →
  currentBlockTemplate (srv w) = Some t →
  String.length (Header t) ≠ 0 →
  isSick (srv w) = false →
  ∃ w',
    broadcastNewJobs i w = Ret tt w' ∧
    (∀ cs, cs ∈ sessions st →
       wlog (conns w' cs) =
         wlog (conns w cs) ++
           [(PushMessage {| push_Version := "2.0";
                            push_Result := JStrings [Header t; Seed t; diff st];
                            push_Id := 0 |},
             write_outcome (conns w cs))]) ∧
    (∀ cs, cs ∉ sessions st → conns w' cs = conns w cs).
Proof.
  intros [_ Hc] Hst Hwf Ht Hh Hsick.
  destruct (lookup_lt_is_Some_2 _ _ Hc) as [cfg Hcfg].
  assert (NoDup (range_order (sessions st))) as Hnd
    by (rewrite range_order_perm; apply NoDup_elements).
  assert (∀ cs, cs ∈ range_order (sessions st) ↔ cs ∈ sessions st) as Hel
    by (intros cs; rewrite range_order_perm; apply elem_of_elements).
  set (w0 := tick (with_srv w {| stratum := stratum (srv w); policy := policy (srv w);
                                 ext := WriteStratumState config_Name (Name cfg) (Listen cfg)
                                          (size (sessions st)) (Difficulty cfg)
                                          (ext (srv w)) |})).
  destruct (for_each_broadcast_effects (JStrings [Header t; Seed t; diff st]) i
              (range_order (sessions st)) Hnd
              (λ cs Hin, Hwf i cs (ex_intro _ st (conj Hst (proj1 (Hel cs) Hin))))
              w0 st Hst)
    as (w' & Hrun & _ & _ & Hout & Hin).
  exists (tick w'). split.
  { rewrite (broadcastNewJobs_run _ _ _ _ _ Hcfg Hst Ht Hh Hsick). fold w0.
    unfold bind at 1. by rewrite Hrun. }
  split.
  - intros cs Hcs. apply (Hin cs), Hel, Hcs.
  - intros cs Hcs. apply (Hout cs). by rewrite Hel.
Qed.

(** X12. Without a block template, with a template whose header is empty,
    or while the server is sick, a broadcast does nothing at all: nothing
    is pushed, the backend is not written to and the clock is not read.
    Only the configuration of the endpoint is looked up. *)
Theorem broadcast_skipped i w :
  i < length config_Stratum →
  currentBlockTemplate (srv w) = None ∨
    (∃ t, currentBlockTemplate (srv w) = Some t ∧
          (Header t = "" ∨ isSick (srv w) = true)) →
  broadcastNewJobs i w = Ret tt w.
Proof.
  intros Hc Hskip. destruct (lookup_lt_is_Some_2 _ _ Hc) as [cfg Hcfg].
  unfold broadcastNewJobs. unfold bind at 1. rewrite (index_run _ _ _ _ Hcfg).
  unfold bind at 1, get_srv.
  destruct Hskip as [->|(t & -> & [Hh|Hsick])]; [done| |].
  - by rewrite Hh.
  - rewrite Hsick. by rewrite orb_true_r.
Qed.

End Coverage.

(** *** Admission *)

Section CoverageAdmission.

Context {HState : Type} `{!@Collaborators HState} `{!@PolicyGateway HState}.

(** X14. A connection from a banned address, or one the rate limiter
    denies, is closed at once: nothing is written to it, no handler is
    started for it (the clock is not read, no deadline is set), and no
    other session is touched.  A banned address is not even put to the rate
    limiter: the server is as it was. *)
Theorem rejected_connection cs (w : @World HState) :
  IsBanned (ip cs) (srv w) = true ∨ (ApplyLimitPolicy (ip cs) (srv w)).2 = false →
  ∃ w',
    ListenTCP_accept cs w = Ret false w' ∧
    closed (conns w' cs) = true ∧
    wlog (conns w' cs) = wlog (conns w cs) ∧
    deadline (conns w' cs) = deadline (conns w cs) ∧
    ticks w' = ticks w ∧
    (∀ cs', cs' ≠ cs → conns w' cs' = conns w cs') ∧
    srv w' = (if IsBanned (ip cs) (srv w) then srv w
              else (ApplyLimitPolicy (ip cs) (srv w)).1).
Proof.
  intros Hrej. unfold ListenTCP_accept. unfold bind at 1, get_srv.
  destruct (IsBanned (ip cs) (srv w)) eqn:Hban.
  - eexists. split; [reflexivity|]. simpl. rewrite fn_lookup_insert.
    split; [done|]. split; [done|]. split; [done|]. split; [done|].
    split; [|done]. intros cs' Hne. by rewrite fn_lookup_insert_ne.
  - destruct Hrej as [Hrej|Hrej]; [done|].
    unfold bind at 1, lift_srv. rewrite Hrej.
    eexists. split; [reflexivity|]. simpl. rewrite fn_lookup_insert.
    split; [done|]. split; [done|]. split; [done|]. split; [done|].
    split; [|done]. intros cs' Hne. by rewrite fn_lookup_insert_ne.
Qed.

End CoverageAdmission.

(** ** Further runs of the sample deployment *)

(** The world in which no session is registered yet. *)
Definition fresh_world (input : list byte) (e : error) : World :=
  {| srv := sample_srv ∅; conns := λ _, sample_conn input e; ticks := 0 |}.

Definition req_submit : StratumReq :=
  {| Id := bytes "6"; Method := "eth_submitWork"; Params := params_one; Worker := "" |}.

Definition line_login : list byte := request_line "3" "eth_login" params_one.
Definition line_submit : list byte := request_line "6" "eth_submitWork" params_one.

(** A session from the address the sample gateway bans. *)
Definition banned_session : Session :=
  {| s_ptr := 3; s_id := 0; ip := "192.0.2.66" |}.

(** The collaborators of the sample deployment while the server is sick. *)
Definition sick_collaborators : @Collaborators unit := {|
  clock := clock;
  config_Name := config_Name;
  config_Stratum := config_Stratum;
  json_Unmarshal_StratumReq := json_Unmarshal_StratumReq;
  json_Unmarshal_strings := json_Unmarshal_strings;
  handleLoginRPC := handleLoginRPC;
  handleGetWorkRPC := handleGetWorkRPC;
  handleTCPSubmitRPC := handleTCPSubmitRPC;
  handleUnknownRPC := handleUnknownRPC;
  currentBlockTemplate := currentBlockTemplate;
  isSick := λ _, true;
  WriteStratumState := WriteStratumState;
  range_order := range_order;
  range_order_perm := range_order_perm;
  handleLoginRPC_endpoints := handleLoginRPC_endpoints;
  handleGetWorkRPC_endpoints := handleGetWorkRPC_endpoints;
  handleTCPSubmitRPC_endpoints := handleTCPSubmitRPC_endpoints;
  handleUnknownRPC_endpoints := handleUnknownRPC_endpoints
|}.

(** Registering the first session of the endpoint. *)
Lemma registerSession_adds_witness :
  s_id sample_session < length (stratum (sample_srv ∅)) ∧
  ∃ s',
    registerSession sample_session (sample_srv ∅) = Some s' ∧
    member s' 0 sample_session ∧
    ¬ member s' 0 other_session ∧
    registerSession sample_session s' = Some s'.
Proof.
  assert (s_id sample_session < length (stratum (sample_srv ∅))) as Hlt by (simpl; lia).
  split; [exact Hlt|].
  destruct (registerSession_adds (sample_srv ∅) sample_session Hlt)
    as (s' & Hr & Hm & _ & Hi & _).
  exists s'. split; [exact Hr|].
  split; [apply Hm; by right|]. split; [|exact Hi].
  intros Hin. apply Hm in Hin as [(st & [= <-] & Hin)|[_ [=]]].
  by apply elem_of_empty in Hin.
Defined.

(** Registering the first session and removing it again. *)
Lemma register_remove_round_trip_witness :
  s_id sample_session < length (stratum (sample_srv ∅)) ∧
  ¬ member (sample_srv ∅) (s_id sample_session) sample_session ∧
  ∃ s1,
    registerSession sample_session (sample_srv ∅) = Some s1 ∧
    removeSession sample_session s1 = Some (sample_srv ∅).
Proof.
  assert (s_id sample_session < length (stratum (sample_srv ∅))) as Hlt by (simpl; lia).
  assert (¬ member (sample_srv ∅) (s_id sample_session) sample_session) as Hnm.
  { intros (st & [= <-] & Hin). by apply elem_of_empty in Hin. }
  split; [exact Hlt|]. split; [exact Hnm|].
  exact (proj1 (register_remove_round_trip (sample_srv ∅) sample_session Hlt) Hnm).
Defined.

(** The empty endpoint and the endpoint with its first session. *)
Lemma registry_wf_kept_witness :
  registry_wf (sample_srv ∅) ∧
  registerSession sample_session (sample_srv ∅) =
    Some (sample_srv ({[ sample_session ]} ∪ ∅)) ∧
  registry_wf (sample_srv ({[ sample_session ]} ∪ ∅)).
Proof.
  assert (registry_wf (sample_srv ∅)) as Hwf.
  { intros i cs (st & Hst & Hin). destruct i as [|i]; [|done].
    injection Hst as <-. by apply elem_of_empty in Hin. }
  assert (registerSession sample_session (sample_srv ∅) =
            Some (sample_srv ({[ sample_session ]} ∪ ∅))) as Hr by reflexivity.
  split; [exact Hwf|]. split; [exact Hr|].
  exact (registry_wf_kept (sample_srv ∅) _ sample_session Hwf (or_introl Hr)).
Defined.

(** An empty line before a request. *)
Lemma short_line_skipped_witness :
  rd (conns (sample_world ([] ++ LF :: line_hashrate ++ [LF]) io_EOF) sample_session) =
    [] ++ LF :: line_hashrate ++ [LF] ∧
  index_LF [] = None ∧
  length (drop_CR []) ≤ 1 ∧
  ∃ w1,
    handleTCPClient_loop 3 sample_session
      (sample_world ([] ++ LF :: line_hashrate ++ [LF]) io_EOF) =
      handleTCPClient_loop 2 sample_session w1 ∧
    rd (conns w1 sample_session) = line_hashrate ++ [LF] ∧
    wlog (conns w1 sample_session) = [].
Proof.
  split; [reflexivity|]. split; [reflexivity|].
  assert (length (drop_CR []) ≤ 1) as Hshort by (simpl; lia).
  split; [exact Hshort|].
  destruct (short_line_skipped sample_session
              (sample_world ([] ++ LF :: line_hashrate ++ [LF]) io_EOF) 2
              [] (line_hashrate ++ [LF]) eq_refl eq_refl
              (Nat.lt_0_succ _) Hshort)
    as (w1 & Hrun & Hrd & _ & _ & _ & Hw & _).
  exists w1. split; [exact Hrun|]. split; [exact Hrd|exact Hw].
Defined.

(** A deadline that expires while the handler waits for a line. *)
Lemma read_error_closes_witness :
  s_id sample_session
    < length (stratum (srv (sample_world [] (net_Error "i/o timeout")))) ∧
  rd_end (conns (sample_world [] (net_Error "i/o timeout")) sample_session) ≠ io_EOF ∧
  ∃ w1 w2,
    handleTCPClient_loop 1 sample_session (sample_world [] (net_Error "i/o timeout")) =
      Ret (Some (net_Error "i/o timeout")) w1 ∧
    ListenTCP_cleanup sample_session (Some (net_Error "i/o timeout")) w1 = Ret tt w2 ∧
    ¬ member (srv w2) 0 sample_session ∧
    closed (conns w2 sample_session) = true.
Proof.
  assert (s_id sample_session
          < length (stratum (srv (sample_world [] (net_Error "i/o timeout"))))) as Hlt
    by (simpl; lia).
  assert (rd_end (conns (sample_world [] (net_Error "i/o timeout")) sample_session)
          ≠ io_EOF) as Hne by discriminate.
  split; [exact Hlt|]. split; [exact Hne|].
  destruct (read_error_closes sample_session _ 0 Hlt eq_refl Hne)
    as (w1 & w2 & Hrun & _ & _ & Hcl & Hnm & Hc & _).
  exists w1, w2. split; [exact Hrun|]. split; [exact Hcl|]. split; [exact Hnm|exact Hc].
Defined.

(** Garbage of 1024 bytes and a line feed, and a shorter line of garbage. *)
Lemma flood_boundary_witness :
  index_LF (repeat x61 1024) = None ∧
  length (repeat x61 1024) = MaxReqSize ∧
  (∃ w1,
     handleTCPClient_loop 1 sample_session
       (sample_world (repeat x61 1024 ++ LF :: []) io_EOF) = Ret None w1 ∧
     policy (srv w1) = [BanClient "203.0.113.7"]) ∧
  (∃ w1,
     handleTCPClient_loop 1 sample_session
       (sample_world (line_garbage ++ LF :: line_hashrate) io_EOF) =
       Ret (Some (json_Error "invalid character")) w1 ∧
     policy (srv w1) = [ApplyMalformedPolicy "203.0.113.7"] ∧
     rd (conns w1 sample_session) = line_hashrate).
Proof.
  assert (index_LF (repeat x61 1024) = None) as Hlf by (vm_compute; reflexivity).
  assert (length (repeat x61 1024) = MaxReqSize) as Hlen by (vm_compute; reflexivity).
  split; [exact Hlf|]. split; [exact Hlen|]. split.
  - exact (proj1 (flood_boundary sample_session
                    (sample_world (repeat x61 1024 ++ LF :: []) io_EOF) 0
                    (repeat x61 1024) [] eq_refl Hlf) Hlen).
  - assert (index_LF line_garbage = None) as Hlf' by (vm_compute; reflexivity).
    assert (length line_garbage < MaxReqSize) as Hlen'
      by (apply Nat.ltb_lt; vm_compute; reflexivity).
    assert (1 < length (drop_CR line_garbage)) as Hlong
      by (apply Nat.ltb_lt; vm_compute; reflexivity).
    assert (json_Unmarshal_StratumReq (drop_CR line_garbage) =
              Malformed (json_Error "invalid character")) as Hd
      by (vm_compute; reflexivity).
    exact (proj2 (flood_boundary sample_session
                    (sample_world (line_garbage ++ LF :: line_hashrate) io_EOF) 0
                    line_garbage line_hashrate eq_refl Hlf') Hlen' Hlong _ Hd).
Defined.

(** A submission from a session that never logged in. *)
Lemma rpc_error_is_fatal_witness :
  endpoint_ok (srv (fresh_world (line_submit ++ [LF]) io_EOF)) (s_id sample_session) ∧
  rpc_handler sample_session req_submit (handleTCPSubmitRPC sample_session "" ["0xabc"]) ∧
  ∃ w1 w2,
    handleTCPClient_loop 1 sample_session (fresh_world (line_submit ++ [LF]) io_EOF) =
      Ret (Some (errors_New "Not subscribed")) w1 ∧
    wlog (conns w1 sample_session) =
      [(error_envelope (bytes "6") {| Code := 25; Message := "Not subscribed" |}, None)] ∧
    ListenTCP_cleanup sample_session (Some (errors_New "Not subscribed")) w1 = Ret tt w2 ∧
    closed (conns w2 sample_session) = true.
Proof.
  assert (endpoint_ok (srv (fresh_world (line_submit ++ [LF]) io_EOF))
            (s_id sample_session)) as Hok by (split; simpl; lia).
  assert (rpc_handler sample_session req_submit
            (handleTCPSubmitRPC sample_session "" ["0xabc"])) as Hh.
  { apply (rpc_submitWork sample_session req_submit ["0xabc"]); [done|].
    vm_compute. reflexivity. }
  assert (ReadLine (conns (fresh_world (line_submit ++ [LF]) io_EOF) sample_session) =
            (line_submit, false, None, sample_conn [] io_EOF)) as Hr
    by (vm_compute; reflexivity).
  assert (1 < length line_submit) as Hlen
    by (apply Nat.ltb_lt; vm_compute; reflexivity).
  assert (json_Unmarshal_StratumReq line_submit = Decoded req_submit) as Hd
    by (vm_compute; reflexivity).
  split; [exact Hok|]. split; [exact Hh|].
  destruct (rpc_error_is_fatal sample_session _ 0 _ _ _ _
              {| Code := 25; Message := "Not subscribed" |} Hok Hr Hlen Hd Hh eq_refl)
    as (e & w1 & w2 & Hrun & -> & Hw & _ & Hcl & _ & Hc).
  exists w1, w2. split; [exact Hrun|]. split; [exact Hw|]. split; [exact Hcl|exact Hc].
Defined.

(** A login that succeeds, followed by a second request. *)
Lemma rpc_success_continues_witness :
  endpoint_ok (srv (fresh_world (line_login ++ [LF] ++ line_submit ++ [LF]) io_EOF))
    (s_id sample_session) ∧
  rpc_handler sample_session req_login (handleLoginRPC sample_session ["0xabc"] "") ∧
  ∃ w1,
    handleTCPClient_loop 3 sample_session
      (fresh_world (line_login ++ [LF] ++ line_submit ++ [LF]) io_EOF) =
      handleTCPClient_loop 2 sample_session w1 ∧
    wlog (conns w1 sample_session) = [(result_envelope (bytes "3") (JBool true), None)] ∧
    rd (conns w1 sample_session) = line_submit ++ [LF] ∧
    member (srv w1) 0 sample_session.
Proof.
  assert (endpoint_ok
            (srv (fresh_world (line_login ++ [LF] ++ line_submit ++ [LF]) io_EOF))
            (s_id sample_session)) as Hok by (split; simpl; lia).
  assert (rpc_handler sample_session req_login (handleLoginRPC sample_session ["0xabc"] ""))
    as Hh.
  { apply (rpc_login sample_session req_login ["0xabc"]); [by right|].
    vm_compute. reflexivity. }
  assert (ReadLine (conns (fresh_world (line_login ++ [LF] ++ line_submit ++ [LF]) io_EOF)
                      sample_session) =
            (line_login, false, None, sample_conn (line_submit ++ [LF]) io_EOF)) as Hr
    by (vm_compute; reflexivity).
  assert (1 < length line_login) as Hlen
    by (apply Nat.ltb_lt; vm_compute; reflexivity).
  assert (json_Unmarshal_StratumReq line_login = Decoded req_login) as Hd
    by (vm_compute; reflexivity).
  split; [exact Hok|]. split; [exact Hh|].
  destruct (rpc_success_continues sample_session _ 2 _ _ _ _ Hok Hr Hlen Hd Hh eq_refl)
    as (w1 & Hrun & Hs & Hw & Hrd & _).
  exists w1. split; [exact Hrun|]. split; [exact Hw|]. split; [exact Hrd|].
  rewrite Hs. eexists. split; [reflexivity|]. simpl. set_solver.
Defined.

(** The session that asks for an unknown method, beside another one. *)
Lemma session_isolation_witness :
  ∃ w',
    ListenTCP_go sample_session (sample_world (line_unknown ++ [LF]) io_EOF) = Ret tt w' ∧
    conns w' other_session =
      conns (sample_world (line_unknown ++ [LF]) io_EOF) other_session.
Proof.
  destruct (ListenTCP_go sample_session (sample_world (line_unknown ++ [LF]) io_EOF))
    as [[] w'| |] eqn:Hrun.
  - exists w'. split; [reflexivity|].
    apply (proj1 (session_isolation sample_session _ w' Hrun)). discriminate.
  - vm_compute in Hrun. discriminate Hrun.
  - vm_compute in Hrun. discriminate Hrun.
Defined.

(** Whatever the peer of the sample session sends. *)
Lemma ListenTCP_go_returns_witness :
  endpoint_ok (srv (sample_world (line_unknown ++ [LF]) io_EOF)) (s_id sample_session) ∧
  (∀ m s, (handleUnknownRPC sample_session m s).2 ≠ None) ∧
  ∃ w', ListenTCP_go sample_session (sample_world (line_unknown ++ [LF]) io_EOF) = Ret tt w'.
Proof.
  assert (endpoint_ok (srv (sample_world (line_unknown ++ [LF]) io_EOF))
            (s_id sample_session)) as Hok by (split; simpl; lia).
  assert (∀ m s, (handleUnknownRPC sample_session m s).2 ≠ None) as Hu
    by (intros m s; discriminate).
  split; [exact Hok|]. split; [exact Hu|].
  exact (ListenTCP_go_returns sample_session _ Hok Hu).
Defined.

(** A broadcast to a healthy member and to one behind a broken pipe. *)
Lemma broadcast_registry_witness :
  endpoint_ok (srv broadcast_world) 0 ∧
  registry_wf (srv broadcast_world) ∧
  ∃ w',
    broadcastNewJobs 0 broadcast_world = Ret tt w' ∧
    member (srv w') 0 sample_session ∧
    ¬ member (srv w') 0 other_session ∧
    registry_wf (srv w').
Proof.
  assert (endpoint_ok (srv broadcast_world) 0) as Hok by (split; simpl; lia).
  assert (registry_wf (srv broadcast_world)) as Hwf.
  { intros i cs (st & Hst & Hin). destruct i as [|i]; [|done].
    injection Hst as <-. apply elem_of_union in Hin as [Hin|Hin];
      apply elem_of_singleton in Hin; by subst. }
  split; [exact Hok|]. split; [exact Hwf|].
  destruct (broadcast_registry 0 broadcast_world
              {| timeout := 5000000000; diff := "0xdiff";
                 sessions := {[ sample_session; other_session ]} |}
              {| Header := "0xheader"; Seed := "0xseed" |}
              Hok eq_refl Hwf eq_refl (λ H, Nat.neq_succ_0 _ H) eq_refl)
    as (w' & Hrun & Hmem & _ & Hwf').
  exists w'. split; [exact Hrun|].
  split; [|split; [|exact Hwf']].
  - apply Hmem. split.
    + eexists. split; [reflexivity|]. simpl. set_solver.
    + intros [_ Hsome]. vm_compute in Hsome. by destruct Hsome.
  - intros Hin. apply Hmem in Hin as [_ Hn]. apply Hn. split; [done|].
    vm_compute. by eexists.
Defined.

(** The notifications of that broadcast. *)
Lemma broadcast_pushes_once_witness :
  endpoint_ok (srv broadcast_world) 0 ∧
  registry_wf (srv broadcast_world) ∧
  ∃ w',
    broadcastNewJobs 0 broadcast_world = Ret tt w' ∧
    wlog (conns w' sample_session) =
      [(job_notification (JStrings ["0xheader"; "0xseed"; "0xdiff"]), None)] ∧
    wlog (conns w' other_session) =
      [(job_notification (JStrings ["0xheader"; "0xseed"; "0xdiff"]),
        Some (net_Error "broken pipe"))] ∧
    conns w' banned_session = conns broadcast_world banned_session.
Proof.
  assert (endpoint_ok (srv broadcast_world) 0) as Hok by (split; simpl; lia).
  assert (registry_wf (srv broadcast_world)) as Hwf.
  { intros i cs (st & Hst & Hin). destruct i as [|i]; [|done].
    injection Hst as <-. apply elem_of_union in Hin as [Hin|Hin];
      apply elem_of_singleton in Hin; by subst. }
  split; [exact Hok|]. split; [exact Hwf|].
  destruct (broadcast_pushes_once 0 broadcast_world
              {| timeout := 5000000000; diff := "0xdiff";
                 sessions := {[ sample_session; other_session ]} |}
              {| Header := "0xheader"; Seed := "0xseed" |}
              Hok eq_refl Hwf eq_refl (λ H, Nat.neq_succ_0 _ H) eq_refl)
    as (w' & Hrun & Hin & Hout).
  exists w'. split; [exact Hrun|].
  split; [|split].
  - apply (Hin sample_session). simpl. set_solver.
  - apply (Hin other_session). simpl. set_solver.
  - apply (Hout banned_session). simpl.
    intros Hb. apply elem_of_union in Hb as [Hb|Hb];
      apply elem_of_singleton in Hb; discriminate Hb.
Defined.

(** A broadcast while the server is sick. *)
Lemma broadcast_skipped_witness :
  0 < length (@config_Stratum _ sick_collaborators) ∧
  @isSick _ sick_collaborators (srv broadcast_world) = true ∧
  @broadcastNewJobs _ sick_collaborators 0 broadcast_world = Ret tt broadcast_world.
Proof.
  assert (0 < length (@config_Stratum _ sick_collaborators)) as Hlt by (simpl; lia).
  split; [exact Hlt|]. split; [reflexivity|].
  apply (@broadcast_skipped _ sick_collaborators 0 broadcast_world Hlt).
  right. exists {| Header := "0xheader"; Seed := "0xseed" |}.
  split; [reflexivity|]. by right.
Defined.

(** A connection from the banned address. *)
Lemma rejected_connection_witness :
  IsBanned (ip banned_session) (srv broadcast_world) = true ∧
  ∃ w',
    ListenTCP_accept banned_session broadcast_world = Ret false w' ∧
    closed (conns w' banned_session) = true ∧
    wlog (conns w' banned_session) = [] ∧
    srv w' = srv broadcast_world.
Proof.
  assert (IsBanned (ip banned_session) (srv broadcast_world) = true) as Hban
    by reflexivity.
  split; [exact Hban|].
  destruct (rejected_connection banned_session broadcast_world (or_introl Hban))
    as (w' & Hrun & Hc & Hw & _ & _ & _ & Hs).
  exists w'. split; [exact Hrun|]. split; [exact Hc|]. split; [exact Hw|].
  rewrite Hs. by rewrite Hban.
Defined.
